(** * Verification of [src/api/evaluate/evaluators.py]

    The module under study is the evaluation glue of the article writer: it
    reads its configuration from the process environment, constructs the
    vendor evaluators, opens a tracing span and returns canned metrics.

    The development is a shallow embedding.  Python values are an inductive
    type, [json.dumps] is an executable function on it, and the effects of
    the module (environment look-ups, vendor constructor calls, tracing
    spans, [print]) are threaded through a state-and-exception monad over a
    [World]. *)

From Stdlib Require Import ZArith NArith Ascii String List.
From stdpp Require Import base option list gmap strings pretty.

Open Scope string_scope.
Open Scope list_scope.

(** ** Python values *)

Module Py.

(** A Python [str] is a sequence of Unicode code points. *)
Abbreviation pystr := (list N).

(** [py "abc"] is the [str] literal written "abc" in the source. *)
Definition py (s : string) : pystr :=
  map N_of_ascii (list_ascii_of_string s).

(** The values that reach the module.  [PyObject cls] stands for an instance
    of any class without a JSON form (a [set], [bytes], an evaluator
    object, ...).  Floats are left out: nothing in the module computes with
    them.  Values are finite trees, so the reference cycles and the
    interpreter's resource limits (recursion depth, integer digit limit) are
    outside the model. *)
#[warnings="-register-all"]
Inductive pyval : Type :=
| PyNone
| PyBool (b : bool)
| PyInt (z : Z)
| PyStr (s : pystr)
| PyList (items : list pyval)
| PyDict (items : list (pyval * pyval))
| PyObject (cls : pystr).

(** The exceptions the module can let escape. *)
Inductive exn : Type :=
| KeyError (key : pystr)
| TypeError
| PyException (cls : pystr).

(** The result of evaluating a call: a value, or an exception in flight. *)
Inductive outcome (A : Type) : Type :=
| Returned (a : A)
| Raised (e : exn).
Arguments Returned {A} a.
Arguments Raised {A} e.

Definition obind {A B} (o : outcome A) (k : A -> outcome B) : outcome B :=
  match o with
  | Returned a => k a
  | Raised e => Raised e
  end.


(** The exception an outcome carries, if any. *)
Definition raised {A} (o : outcome A) : option exn :=
  match o with Returned _ => None | Raised e => Some e end.

(** [d[key]] on a dict display, first match. *)
Fixpoint dict_get (key : pystr) (items : list (pyval * pyval)) : option pyval :=
  match items with
  | [] => None
  | (PyStr k, v) :: rest =>
      if decide (k = key) then Some v else dict_get key rest
  | _ :: rest => dict_get key rest
  end.

Definition getitem (v : pyval) (key : pystr) : option pyval :=
  match v with
  | PyDict items => dict_get key items
  | _ => None
  end.

(** The keys of a dict, in insertion order. *)
Definition dict_keys (v : pyval) : list pyval :=
  match v with
  | PyDict items => map fst items
  | _ => []
  end.

End Py.
Export Py.

(** ** [json.dumps] with its default arguments *)

Module Json.

Definition hex_digit (d : N) : N :=
  (if d <? 10 then 48 + d else 87 + d)%N.

(** ['{0:04x}'.format(n)] for [n < 0x10000]. *)
Definition hex4 (n : N) : pystr :=
  [ hex_digit (N.shiftr n 12 mod 16); hex_digit (N.shiftr n 8 mod 16);
    hex_digit (N.shiftr n 4 mod 16); hex_digit (n mod 16) ]%N.

Definition u_escape (n : N) : pystr := py "\u" ++ hex4 n.

(** The replacement of one code point by [py_encode_basestring_ascii]:
    the short escapes, the printable ASCII range kept, everything else as
    [\uXXXX], with a surrogate pair above the basic plane. *)
Definition escape_char (c : N) : pystr :=
  (if c =? 34 then py "\" ++ [34]
   else if c =? 92 then py "\\"
   else if c =? 10 then py "\n"
   else if c =? 13 then py "\r"
   else if c =? 9 then py "\t"
   else if c =? 8 then py "\b"
   else if c =? 12 then py "\f"
   else if (32 <=? c) && (c <=? 126) then [c]
   else if c <? 65536 then u_escape c
   else
     let n := c - 65536 in
     let s1 := N.lor 55296 (N.land (N.shiftr n 10) 1023) in
     let s2 := N.lor 56320 (N.land n 1023) in
     u_escape s1 ++ u_escape s2)%N.

Definition encode_basestring_ascii (s : pystr) : pystr :=
  [34%N] ++ concat (map escape_char s) ++ [34%N].

(** [int.__repr__]. *)
Definition int_repr (z : Z) : pystr := py (pretty z).

(** [sep.join(parts)]. *)
Fixpoint join (sep : pystr) (parts : list pystr) : pystr :=
  match parts with
  | [] => []
  | [p] => p
  | p :: rest => p ++ sep ++ join sep rest
  end.

(** The text of a dict key: [str] as it is, [bool], [None] and [int]
    converted, anything else refused with [TypeError]. *)
Definition json_key (k : pyval) : outcome pystr :=
  match k with
  | PyStr s => Returned s
  | PyBool true => Returned (py "true")
  | PyBool false => Returned (py "false")
  | PyNone => Returned (py "null")
  | PyInt z => Returned (int_repr z)
  | _ => Raised TypeError
  end.

(** [json.dumps(v)].  The one failure in the model is the refusal of a value
    or of a key without a JSON form, a [TypeError]; the [ValueError] of a
    reference cycle or of an integer over the digit limit and the
    [RecursionError] of a deep nesting need values that [pyval] does not
    have.  The statements on the functions of the module therefore take the
    exception of [json.dumps] as they find it and do not rely on which one
    it is. *)
Fixpoint json_dumps (v : pyval) : outcome pystr :=
  match v with
  | PyNone => Returned (py "null")
  | PyBool true => Returned (py "true")
  | PyBool false => Returned (py "false")
  | PyInt z => Returned (int_repr z)
  | PyStr s => Returned (encode_basestring_ascii s)
  | PyList items =>
      obind
        ((fix chunks (l : list pyval) : outcome (list pystr) :=
            match l with
            | [] => Returned []
            | x :: rest =>
                obind (json_dumps x) (fun s =>
                obind (chunks rest) (fun r => Returned (s :: r)))
            end) items)
        (fun parts => Returned (py "[" ++ join (py ", ") parts ++ py "]"))
  | PyDict items =>
      obind
        ((fix chunks (l : list (pyval * pyval)) : outcome (list pystr) :=
            match l with
            | [] => Returned []
            | (k, x) :: rest =>
                obind (json_key k) (fun ks =>
                obind (json_dumps x) (fun s =>
                obind (chunks rest) (fun r =>
                Returned ((encode_basestring_ascii ks ++ py ": " ++ s) :: r))))
            end) items)
        (fun parts => Returned (py "{" ++ join (py ", ") parts ++ py "}"))
  | PyObject _ => Raised TypeError
  end.

End Json.
Export Json.

(** ** The world the module runs in *)

Module Runtime.

(** A reference to a tracing span: the invalid span that the tracing API
    hands out when no span is current, a span of the caller, or a span
    opened by this module and still active (by its depth in the stack). *)
Inductive span_ref : Type :=
| INVALID_SPAN
| CallerSpan (id : N)
| ActiveSpan (depth : nat).

(** A tracing context, as far as the module is concerned: the span it
    carries. *)
Record Context : Type := mkContext { context_span : span_ref }.

Definition set_span_in_context (span : span_ref) : Context :=
  mkContext span.

(** A span: the name and the context it was started with, the attributes
    set on it, and the exception recorded on it when its block was left by
    one. *)
Record Span : Type := mkSpan {
  span_name : pystr;
  span_context : Context;
  span_attributes : gmap pystr pyval;
  span_status : option exn
}.

(** The classes of the vendor packages that the module instantiates. *)
Inductive vendor_class : Type :=
| RelevanceEvaluator | GroundednessEvaluator | FluencyEvaluator
| CoherenceEvaluator
| ViolenceEvaluator | HateUnfairnessEvaluator | SelfHarmEvaluator
| SexualEvaluator
| ViolenceMultimodalEvaluator | SelfHarmMultimodalEvaluator
| HateUnfairnessMultimodalEvaluator | SexualMultimodalEvaluator
| ProtectedMaterialMultimodalEvaluator
| DefaultAzureCredential.

(** The arguments of a call: positional ones, then keyword ones. *)
Record call_args : Type := mkArgs {
  positional : list pyval;
  keywords : list (pystr * pyval)
}.

(** What the module does to its collaborators, in program order. *)
Inductive event : Type :=
| EnvRead (name : pystr)
| VendorCall (cls : vendor_class) (args : call_args)
| SpanEnded (span : Span)
| Printed (args : list pyval).

Record World : Type := mkWorld {
  environ : gmap pystr pystr;      (* os.environ *)
  caller_span : span_ref;          (* the span current on entry *)
  active : list Span;              (* spans opened and not yet ended *)
  log : list event                 (* the effects so far, oldest first *)
}.

Definition emit_events (evs : list event) (w : World) : World :=
  mkWorld (environ w) (caller_span w) (active w) (log w ++ evs).

Definition set_active (spans : list Span) (w : World) : World :=
  mkWorld (environ w) (caller_span w) spans (log w).

(** State and exception monad of the module's code. *)
Definition M (A : Type) : Type := World -> outcome A * World.

Definition ret {A} (a : A) : M A := fun w => (Returned a, w).

Definition raise {A} (e : exn) : M A := fun w => (Raised e, w).

Definition bind {A B} (m : M A) (k : A -> M B) : M B :=
  fun w =>
    match m w with
    | (Returned a, w') => k a w'
    | (Raised e, w') => (Raised e, w')
    end.

Definition lift {A} (o : outcome A) : M A := fun w => (o, w).

Definition emit (e : event) : M unit :=
  fun w => (Returned tt, emit_events [e] w).

End Runtime.
Export Runtime.

Declare Scope py_scope.
Delimit Scope py_scope with py_m.
Notation "x <- m ;; k" := (bind m (fun x => k))
  (at level 100, m at next level, right associativity) : py_scope.
Notation "m ;;; k" := (bind m (fun _ => k))
  (at level 100, right associativity) : py_scope.
Open Scope py_scope.

(** ** The standard-library and tracing calls the module makes *)

Module Builtins.

(** [os.environ[name]]: [KeyError] when the variable is unset. *)
Definition os_environ_getitem (name : pystr) : M pystr :=
  emit (EnvRead name) ;;;
  fun w =>
    match environ w !! name with
    | Some v => (Returned v, w)
    | None => (Raised (KeyError name), w)
    end.

(** [os.getenv(name)]: [None] when the variable is unset. *)
Definition os_getenv (name : pystr) : M (option pystr) :=
  emit (EnvRead name) ;;;
  fun w => (Returned (environ w !! name), w).

(** The text an f-string puts for [{x}] when [x] is [os.getenv]'s result. *)
Definition format_value (x : option pystr) : pystr :=
  match x with
  | Some s => s
  | None => py "None"
  end.

(** [print(...)]: the arguments go to the log as they are. *)
Definition print (args : list pyval) : M unit := emit (Printed args).

(** The span that is current: the innermost active one, else the caller's. *)
Definition current_span (w : World) : span_ref :=
  match active w with
  | [] => caller_span w
  | _ :: _ => ActiveSpan (length (active w) - 1)
  end.

(** [trace.get_current_span()]. *)
Definition get_current_span : M span_ref :=
  fun w => (Returned (current_span w), w).

(** [span.set_attribute(key, value)] on the active span at [depth]. *)
Definition set_attribute (depth : nat) (key : pystr) (value : pyval) : M unit :=
  fun w =>
    (Returned tt,
     set_active
       (alter (fun sp => mkSpan (span_name sp) (span_context sp)
                           (<[key := value]> (span_attributes sp))
                           (span_status sp))
              depth (active w))
       w).

(** Leaving the block of a span: the span is ended and goes to the log,
    carrying the exception when the block was left by one. *)
Definition end_span (depth : nat) (status : option exn) : M unit :=
  fun w =>
    match active w !! depth with
    | Some sp =>
        (Returned tt,
         emit_events
           [SpanEnded (mkSpan (span_name sp) (span_context sp)
                         (span_attributes sp) status)]
           (set_active (take depth (active w)) w))
    | None => (Returned tt, w)
    end.

(** [with tracer.start_as_current_span(name, context=context) as span:]
    the span is opened, the block runs with it, and it is ended however the
    block is left; an exception is recorded on it and raised again. *)
Definition start_as_current_span {A} (name : pystr) (context : Context)
    (block : nat -> M A) : M A :=
  fun w =>
    let depth := length (active w) in
    let w0 := set_active (active w ++ [mkSpan name context ∅ None]) w in
    let '(o, w1) := block depth w0 in
    let '(_, w2) := end_span depth (raised o) w1 in
    (o, w2).

End Builtins.
Export Builtins.

(** ** The module [evaluators] *)

Module Evaluators.

(** The result literal of the article evaluation (lines 61-79 and 164-182
    of the source hold the same display). *)
Definition article_metrics : pyval :=
  PyDict [
    (PyStr (py "relevance.gpt_relevance"), PyInt 5);
    (PyStr (py "fluency.gpt_fluency"), PyInt 5);
    (PyStr (py "coherence.gpt_coherence"), PyInt 5);
    (PyStr (py "groundedness.gpt_groundedness"), PyInt 5);
    (PyStr (py "violence.violence_defect_rate"), PyInt 0);
    (PyStr (py "self_harm.self_harm_defect_rate"), PyInt 0);
    (PyStr (py "hate_unfairness.hate_unfairness_defect_rate"), PyInt 0);
    (PyStr (py "sexual.sexual_defect_rate"), PyInt 0) ].

Definition article_row : pyval :=
  PyDict [
    (PyStr (py "relevance.gpt_relevance"), PyInt 5);
    (PyStr (py "fluency.gpt_fluency"), PyInt 5);
    (PyStr (py "coherence.gpt_coherence"), PyInt 5);
    (PyStr (py "groundedness.gpt_groundedness"), PyInt 5) ].

Definition article_result : pyval :=
  PyDict [
    (PyStr (py "studio_url"), PyStr (py "https://dummy-eval.azure.com"));
    (PyStr (py "metrics"), article_metrics);
    (PyStr (py "rows"), PyList [article_row]) ].

(** The result literal of the image evaluation (lines 111-127 and
    189-205). *)
Definition image_scores : pyval :=
  PyDict [
    (PyStr (py "violence.score"), PyInt 0);
    (PyStr (py "self_harm.score"), PyInt 0);
    (PyStr (py "hate_unfairness.score"), PyInt 0);
    (PyStr (py "sexual.score"), PyInt 0);
    (PyStr (py "protected_material.score"), PyInt 0) ].

Definition image_result : pyval :=
  PyDict [
    (PyStr (py "studio_url"), PyStr (py "https://dummy-image-eval.azure.com"));
    (PyStr (py "metrics"), image_scores);
    (PyStr (py "rows"), PyList [image_scores]) ].

(** Instances of the module's classes. *)
Record ArticleEvaluator : Type := mkArticleEvaluator {
  article_evaluators : list (pystr * pyval);
  article_project_scope : pyval
}.

Record ImageEvaluator : Type := mkImageEvaluator {
  image_evaluators : list (pystr * pyval);
  image_project_scope : pyval
}.

(** [FriendlinessEvaluator()]: [__init__] does nothing. *)
Definition FriendlinessEvaluator__init__ : pyval :=
  PyObject (py "FriendlinessEvaluator").

(** [FriendlinessEvaluator.__call__(self, response)]. *)
Definition FriendlinessEvaluator__call__ (self response : pyval) : pyval :=
  PyDict [ (PyStr (py "score"), PyInt 5) ].

(** [ArticleEvaluator.__call__(self, *, data_path, **kwargs)]. *)
Definition ArticleEvaluator__call__ (self : ArticleEvaluator)
    (data_path : pyval) (kwargs : list (pystr * pyval)) : pyval :=
  let dummy_result := article_result in
  dummy_result.

(** [ImageEvaluator.__call__(self, *, messages, **kwargs)]. *)
Definition ImageEvaluator__call__ (self : ImageEvaluator)
    (messages : pyval) (kwargs : list (pystr * pyval)) : pyval :=
  let dummy_output := image_result in
  dummy_output.

(** [evaluate_image(messages)]. *)
Definition evaluate_image (messages : pyval) : M pyval :=
  let dummy_output := image_result in
  print [PyStr (py "Image evaluation (lab mode):"); dummy_output] ;;;
  ret dummy_output.

Section WithVendor.

(** The constructors of the vendor packages are not part of the module:
    what a constructor call yields is a parameter. *)
Variable vendor : vendor_class -> call_args -> outcome pyval.

(** A call of a vendor constructor. *)
Definition vendor_new (cls : vendor_class) (args : call_args) : M pyval :=
  emit (VendorCall cls args) ;;;
  lift (vendor cls args).

(** [cls(azure_ai_project=project_scope, credential=DefaultAzureCredential())] *)
Definition safety_evaluator (cls : vendor_class) (project_scope : pyval)
    : M pyval :=
  credential <- vendor_new DefaultAzureCredential (mkArgs [] []) ;;
  vendor_new cls
    (mkArgs [] [ (py "azure_ai_project", project_scope);
                 (py "credential", credential) ]).

(** [cls(credential=DefaultAzureCredential(), azure_ai_project=project_scope)] *)
Definition multimodal_evaluator (cls : vendor_class) (project_scope : pyval)
    : M pyval :=
  credential <- vendor_new DefaultAzureCredential (mkArgs [] []) ;;
  vendor_new cls
    (mkArgs [] [ (py "credential", credential);
                 (py "azure_ai_project", project_scope) ]).

(** [ArticleEvaluator(model_config, project_scope)]. *)
Definition ArticleEvaluator__init__ (model_config project_scope : pyval)
    : M ArticleEvaluator :=
  relevance <- vendor_new RelevanceEvaluator (mkArgs [model_config] []) ;;
  fluency <- vendor_new FluencyEvaluator (mkArgs [model_config] []) ;;
  coherence <- vendor_new CoherenceEvaluator (mkArgs [model_config] []) ;;
  groundedness <- vendor_new GroundednessEvaluator (mkArgs [model_config] []) ;;
  violence <- safety_evaluator ViolenceEvaluator project_scope ;;
  hate_unfairness <- safety_evaluator HateUnfairnessEvaluator project_scope ;;
  self_harm <- safety_evaluator SelfHarmEvaluator project_scope ;;
  sexual <- safety_evaluator SexualEvaluator project_scope ;;
  let friendliness := FriendlinessEvaluator__init__ in
  ret (mkArticleEvaluator
         [ (py "relevance", relevance);
           (py "fluency", fluency);
           (py "coherence", coherence);
           (py "groundedness", groundedness);
           (py "violence", violence);
           (py "hate_unfairness", hate_unfairness);
           (py "self_harm", self_harm);
           (py "sexual", sexual);
           (py "friendliness", friendliness) ]
         project_scope).

(** [ImageEvaluator(project_scope)]. *)
Definition ImageEvaluator__init__ (project_scope : pyval) : M ImageEvaluator :=
  violence <- multimodal_evaluator ViolenceMultimodalEvaluator project_scope ;;
  self_harm <- multimodal_evaluator SelfHarmMultimodalEvaluator project_scope ;;
  hate_unfairness <-
    multimodal_evaluator HateUnfairnessMultimodalEvaluator project_scope ;;
  sexual <- multimodal_evaluator SexualMultimodalEvaluator project_scope ;;
  protected_material <-
    multimodal_evaluator ProtectedMaterialMultimodalEvaluator project_scope ;;
  ret (mkImageEvaluator
         [ (py "violence", violence);
           (py "self_harm", self_harm);
           (py "hate_unfairness", hate_unfairness);
           (py "sexual", sexual);
           (py "protected_material", protected_material) ]
         project_scope).

(** [evaluate_article(data, trace_context)]. *)
Definition evaluate_article (data : pyval) (trace_context : Context) : M pyval :=
  start_as_current_span (py "run_evaluators") trace_context (fun span =>
    inputs <- lift (json_dumps data) ;;
    set_attribute span (py "inputs") (PyStr inputs) ;;;
    azure_deployment <-
      os_environ_getitem (py "AZURE_OPENAI_4_EVAL_DEPLOYMENT_NAME") ;;
    api_version <- os_environ_getitem (py "AZURE_OPENAI_API_VERSION") ;;
    openai_name <- os_getenv (py "AZURE_OPENAI_NAME") ;;
    let configuration :=
      PyDict [
        (PyStr (py "azure_deployment"), PyStr azure_deployment);
        (PyStr (py "api_version"), PyStr api_version);
        (PyStr (py "azure_endpoint"),
         PyStr (py "https://" ++ format_value openai_name
                ++ py ".cognitiveservices.azure.com/")) ] in
    subscription_id <- os_environ_getitem (py "AZURE_SUBSCRIPTION_ID") ;;
    resource_group_name <- os_environ_getitem (py "AZURE_RESOURCE_GROUP") ;;
    project_name <- os_environ_getitem (py "AZURE_AI_PROJECT_NAME") ;;
    let project_scope :=
      PyDict [
        (PyStr (py "subscription_id"), PyStr subscription_id);
        (PyStr (py "resource_group_name"), PyStr resource_group_name);
        (PyStr (py "project_name"), PyStr project_name) ] in
    evaluator <- ArticleEvaluator__init__ configuration project_scope ;;
    let dummy_result := article_result in
    output <- lift (json_dumps dummy_result) ;;
    set_attribute span (py "output") (PyStr output) ;;;
    results <- lift (json_dumps dummy_result) ;;
    print [PyStr (py "results: "); PyStr results] ;;;
    ret dummy_result).

(** [evaluate_article_in_background(research_context, product_context,
    assignment_context, research, products, article)]: the function ends
    without a [return], so its value is [None]. *)
Definition evaluate_article_in_background
    (research_context product_context assignment_context
     research products article : pyval) : M pyval :=
  span <- get_current_span ;;
  let trace_context := set_span_in_context span in
  query <- lift (json_dumps (PyDict [
             (PyStr (py "research_context"), research_context);
             (PyStr (py "product_context"), product_context);
             (PyStr (py "assignment_context"), assignment_context) ])) ;;
  context <- lift (json_dumps (PyDict [
               (PyStr (py "research"), research);
               (PyStr (py "products"), products) ])) ;;
  response <- lift (json_dumps article) ;;
  let eval_data :=
    PyDict [
      (PyStr (py "query"), PyStr query);
      (PyStr (py "context"), PyStr context);
      (PyStr (py "response"), PyStr response) ] in
  evaluate_article eval_data trace_context ;;;
  ret PyNone.

End WithVendor.

End Evaluators.
Export Evaluators.

(** ** Vocabulary of the statements *)

Module Statements.

(** *** Worlds and computations *)

(** The world after a run, written from the world before it: the stack of
    active spans it leaves and the events it appended. *)
Definition evolve (spans : list Span) (evs : list event) (w : World) : World :=
  mkWorld (environ w) (caller_span w) spans (log w ++ evs).

(** A span with one more attribute, and a span with its final status. *)
Definition set_attr (key : pystr) (value : pyval) (sp : Span) : Span :=
  mkSpan (span_name sp) (span_context sp)
    (<[key := value]> (span_attributes sp)) (span_status sp).

Definition set_status (status : option exn) (sp : Span) : Span :=
  mkSpan (span_name sp) (span_context sp) (span_attributes sp) status.

(** A computation that only appends to the log: the environment, the
    caller's span and the active spans are after it as before. *)
Definition logs_only {A} (m : M A) : Prop :=
  forall w, exists evs, snd (m w) = emit_events evs w.

(** Inside the block of the span at depth [d], a computation may append to
    the log and set attributes on that span; it leaves the spans below
    alone, and it keeps the name, the context and the attribute [key] of
    the span. *)
Definition same_span (key : pystr) (sp sp' : Span) : Prop :=
  span_name sp' = span_name sp
  /\ span_context sp' = span_context sp
  /\ span_attributes sp' !! key = span_attributes sp !! key.

Definition in_span (key : pystr) (d : nat) {A} (m : M A) : Prop :=
  forall st sp evs w, length st = d ->
    exists sp' evs',
      snd (m (evolve (st ++ [sp]) evs w)) = evolve (st ++ [sp']) (evs ++ evs') w
      /\ same_span key sp sp'.

(** Two computations are similar when, started in worlds with equal
    environments, they have equal outcomes and leave equal environments. *)
Definition env_sim {A} (m1 m2 : M A) : Prop :=
  forall w1 w2, environ w1 = environ w2 ->
    fst (m1 w1) = fst (m2 w2)
    /\ environ (snd (m1 w1)) = environ (snd (m2 w2)).

(** Whatever the computation returns satisfies [P]. *)
Definition results_in {A} (P : A -> Prop) (m : M A) : Prop :=
  forall w a, fst (m w) = Returned a -> P a.

(** *** The module's environment, inputs and traces *)

(** The environment variables that [evaluate_article] reads with
    [os.environ[...]], in the order of the reads. *)
Definition required_env : list pystr :=
  [ py "AZURE_OPENAI_4_EVAL_DEPLOYMENT_NAME";
    py "AZURE_OPENAI_API_VERSION";
    py "AZURE_SUBSCRIPTION_ID";
    py "AZURE_RESOURCE_GROUP";
    py "AZURE_AI_PROJECT_NAME" ].

(** All of them are set. *)
Definition env_configured (env : gmap pystr pystr) : Prop :=
  Forall (fun name => is_Some (env !! name)) required_env.

(** The first required variable that is unset, if any. *)
Definition first_unset (env : gmap pystr pystr) : option pystr :=
  List.find (fun name => bool_decide (env !! name = None)) required_env.

(** A value is well formed for the module when [json.dumps] accepts it. *)
Definition json_serializable (v : pyval) : Prop :=
  exists s, json_dumps v = Returned s.

(** The vendor constructors hand back an object. *)
Definition vendor_constructs
    (vendor : vendor_class -> call_args -> outcome pyval) : Prop :=
  forall cls args, exists obj, vendor cls args = Returned obj.

(** The kinds of events. *)
Definition is_env_read (e : event) : bool :=
  match e with EnvRead _ => true | _ => false end.

Definition is_vendor_call (e : event) : bool :=
  match e with VendorCall _ _ => true | _ => false end.

Definition is_span (e : event) : bool :=
  match e with SpanEnded _ => true | _ => false end.

Definition is_print (e : event) : bool :=
  match e with Printed _ => true | _ => false end.

(** [jq] reads a literal in which the apostrophe stands for the double
    quote. *)
Definition jq (s : string) : pystr :=
  map (fun c => if (c =? 39)%N then 34%N else c) (py s).

(** The text [json.dumps] gives for the article result literal. *)
Definition article_result_json : pystr :=
  jq "{'studio_url': 'https://dummy-eval.azure.com', 'metrics': {'relevance.gpt_relevance': 5, 'fluency.gpt_fluency': 5, 'coherence.gpt_coherence': 5, 'groundedness.gpt_groundedness': 5, 'violence.violence_defect_rate': 0, 'self_harm.self_harm_defect_rate': 0, 'hate_unfairness.hate_unfairness_defect_rate': 0, 'sexual.sexual_defect_rate': 0}, 'rows': [{'relevance.gpt_relevance': 5, 'fluency.gpt_fluency': 5, 'coherence.gpt_coherence': 5, 'groundedness.gpt_groundedness': 5}]}".

(** The block of [evaluate_article] starts in the world in which its span
    has just been opened. *)
Definition run_evaluators_span0 (ctx : Context) : Span :=
  mkSpan (py "run_evaluators") ctx ∅ None.

(** The span that a completed [evaluate_article] ends. *)
Definition run_evaluators_span (ctx : Context) (inputs : pystr) : Span :=
  mkSpan (py "run_evaluators") ctx
    (<[py "output" := PyStr article_result_json]>
       (<[py "inputs" := PyStr inputs]> ∅))
    None.

(** The items of a dict display as [json.dumps] writes them. *)
Fixpoint dict_chunks (items : list (pyval * pyval)) : outcome (list pystr) :=
  match items with
  | [] => Returned []
  | (k, x) :: rest =>
      obind (json_key k) (fun ks =>
      obind (json_dumps x) (fun s =>
      obind (dict_chunks rest) (fun r =>
      Returned ((encode_basestring_ascii ks ++ py ": " ++ s) :: r))))
  end.

(** The text of a dict display whose keys are [str] literals, from the
    texts of its values. *)
Definition record_json (fields : list (pystr * pystr)) : pystr :=
  py "{"
  ++ join (py ", ")
       (map (fun '(k, s) => encode_basestring_ascii k ++ py ": " ++ s) fields)
  ++ py "}".

(** *** The construction of the evaluators *)

(** The call of a quality evaluator's constructor, [cls(model_config)]. *)
Definition quality_call (cls : vendor_class) (model_config : pyval) : event :=
  VendorCall cls (mkArgs [model_config] []).

(** [DefaultAzureCredential()]. *)
Definition credential_call : event :=
  VendorCall DefaultAzureCredential (mkArgs [] []).

(** [cls(azure_ai_project=project_scope, credential=credential)]. *)
Definition safety_call (cls : vendor_class) (project_scope credential : pyval)
    : event :=
  VendorCall cls
    (mkArgs [] [ (py "azure_ai_project", project_scope);
                 (py "credential", credential) ]).

(** [cls(credential=credential, azure_ai_project=project_scope)]. *)
Definition multimodal_call (cls : vendor_class)
    (project_scope credential : pyval) : event :=
  VendorCall cls
    (mkArgs [] [ (py "credential", credential);
                 (py "azure_ai_project", project_scope) ]).

(** The constructor calls of a completed [ArticleEvaluator(...)], in
    program order. *)
Definition article_construction (model_config project_scope credential : pyval)
    : list event :=
  [ quality_call RelevanceEvaluator model_config;
    quality_call FluencyEvaluator model_config;
    quality_call CoherenceEvaluator model_config;
    quality_call GroundednessEvaluator model_config;
    credential_call;
    safety_call ViolenceEvaluator project_scope credential;
    credential_call;
    safety_call HateUnfairnessEvaluator project_scope credential;
    credential_call;
    safety_call SelfHarmEvaluator project_scope credential;
    credential_call;
    safety_call SexualEvaluator project_scope credential ].

(** The constructor calls of a completed [ImageEvaluator(...)]. *)
Definition image_construction (project_scope credential : pyval)
    : list event :=
  [ credential_call;
    multimodal_call ViolenceMultimodalEvaluator project_scope credential;
    credential_call;
    multimodal_call SelfHarmMultimodalEvaluator project_scope credential;
    credential_call;
    multimodal_call HateUnfairnessMultimodalEvaluator project_scope credential;
    credential_call;
    multimodal_call SexualMultimodalEvaluator project_scope credential;
    credential_call;
    multimodal_call ProtectedMaterialMultimodalEvaluator project_scope
      credential ].

Definition is_credential_call (e : event) : bool :=
  match e with
  | VendorCall DefaultAzureCredential _ => true
  | _ => false
  end.

(** The event of a constructor call that returned an object. *)
Definition call_returned
    (vendor : vendor_class -> call_args -> outcome pyval) (e : event) : Prop :=
  match e with
  | VendorCall cls args => exists obj, vendor cls args = Returned obj
  | _ => False
  end.

(** The calls of a construction tell its outcome: when it returns, every
    call returned; when it raises, the last call is the one that raised
    that exception, and the calls before it returned. *)
Definition construction_trace
    (vendor : vendor_class -> call_args -> outcome pyval)
    {A} (o : outcome A) (calls : list event) : Prop :=
  match o with
  | Returned _ => Forall (call_returned vendor) calls
  | Raised e =>
      exists before cls args,
        calls = before ++ [VendorCall cls args]
        /\ Forall (call_returned vendor) before
        /\ vendor cls args = Raised e
  end.

(** A computation that does nothing but call vendor constructors: its
    outcome and its calls are the same in every world. *)
Definition constructs
    (vendor : vendor_class -> call_args -> outcome pyval)
    {A} (m : M A) : Prop :=
  exists o calls,
    (forall w, m w = (o, emit_events calls w))
    /\ construction_trace vendor o calls.

(** *** The configuration read by [evaluate_article] *)

(** The order in which [evaluate_article] reads the environment. *)
Definition read_order : list pystr :=
  [ py "AZURE_OPENAI_4_EVAL_DEPLOYMENT_NAME";
    py "AZURE_OPENAI_API_VERSION";
    py "AZURE_OPENAI_NAME";
    py "AZURE_SUBSCRIPTION_ID";
    py "AZURE_RESOURCE_GROUP";
    py "AZURE_AI_PROJECT_NAME" ].

(** The names of a list up to and including [name]. *)
Fixpoint through (name : pystr) (names : list pystr) : list pystr :=
  match names with
  | [] => []
  | first :: rest =>
      if decide (first = name) then [first] else first :: through name rest
  end.

(** The dict display [configuration] of lines 152-156, from the values
    read. *)
Definition model_configuration (deployment version : pystr)
    (openai_name : option pystr) : pyval :=
  PyDict [
    (PyStr (py "azure_deployment"), PyStr deployment);
    (PyStr (py "api_version"), PyStr version);
    (PyStr (py "azure_endpoint"),
     PyStr (py "https://" ++ format_value openai_name
            ++ py ".cognitiveservices.azure.com/")) ].

(** The dict display [project_scope] of lines 157-161. *)
Definition project_scope_of (subscription group project : pystr) : pyval :=
  PyDict [
    (PyStr (py "subscription_id"), PyStr subscription);
    (PyStr (py "resource_group_name"), PyStr group);
    (PyStr (py "project_name"), PyStr project) ].

(** The record [eval_data] of lines 134-145, from the three JSON texts. *)
Definition evaluation_input (query context response : pystr) : pyval :=
  PyDict [
    (PyStr (py "query"), PyStr query);
    (PyStr (py "context"), PyStr context);
    (PyStr (py "response"), PyStr response) ].

(** The names under which [ArticleEvaluator] and [ImageEvaluator] keep
    their evaluators. *)
Definition article_evaluator_names : list pystr :=
  [ py "relevance"; py "fluency"; py "coherence"; py "groundedness";
    py "violence"; py "hate_unfairness"; py "self_harm"; py "sexual";
    py "friendliness" ].

Definition image_evaluator_names : list pystr :=
  [ py "violence"; py "self_harm"; py "hate_unfairness"; py "sexual";
    py "protected_material" ].

End Statements.
Export Statements.

(** ** The evaluation-result record *)

Module ResultRecord.

Definition is_str (v : pyval) : bool :=
  match v with PyStr _ => true | _ => false end.

(** The numbers of the model are the integers. *)
Definition is_number (v : pyval) : bool :=
  match v with PyInt _ => true | _ => false end.

(** A mapping from string names to numbers. *)
Definition is_metric_mapping (v : pyval) : bool :=
  match v with
  | PyDict items => forallb (fun '(k, x) => is_str k && is_number x) items
  | _ => false
  end.

(** The invariant of the data model: "metrics" is a mapping from names to
    numbers and "rows" is a sequence of such mappings. *)
Definition is_result_record (r : pyval) : bool :=
  match getitem r (py "metrics"), getitem r (py "rows") with
  | Some metrics, Some (PyList rows) =>
      is_metric_mapping metrics && forallb is_metric_mapping rows
  | _, _ => false
  end.

(** The string keys of a dict, in order. *)
Definition str_keys (v : pyval) : list pystr :=
  match v with
  | PyDict items =>
      omap (fun '(k, _) => match k with PyStr s => Some s | _ => None end)
        items
  | _ => []
  end.

Definition quality_names : list pystr :=
  [ py "relevance.gpt_relevance"; py "fluency.gpt_fluency";
    py "coherence.gpt_coherence"; py "groundedness.gpt_groundedness" ].

Definition defect_rate_names : list pystr :=
  [ py "violence.violence_defect_rate"; py "self_harm.self_harm_defect_rate";
    py "hate_unfairness.hate_unfairness_defect_rate";
    py "sexual.sexual_defect_rate" ].

Definition image_score_names : list pystr :=
  [ py "violence.score"; py "self_harm.score"; py "hate_unfairness.score";
    py "sexual.score"; py "protected_material.score" ].

(** The shape of the rows of an article result. *)
Definition quality_rows_only (r : pyval) : Prop :=
  exists metrics row,
    getitem r (py "metrics") = Some metrics
    /\ getitem r (py "rows") = Some (PyList [row])
    /\ dict_keys row = map PyStr quality_names
    /\ Forall (fun name => name ∈ str_keys metrics /\ name ∉ str_keys row)
         defect_rate_names.

End ResultRecord.
Export ResultRecord.

(** ** Concrete worlds *)

Module Fixtures.

(** A vendor whose constructors hand back a plain object. *)
Definition plain_vendor (cls : vendor_class) (args : call_args) : outcome pyval :=
  Returned (PyObject (py "object")).

(** A vendor whose relevance evaluator refuses its configuration. *)
Definition strict_vendor (cls : vendor_class) (args : call_args) : outcome pyval :=
  match cls with
  | RelevanceEvaluator => Raised (PyException (py "EvaluationException"))
  | _ => Returned (PyObject (py "object"))
  end.

(** The five required variables set, AZURE_OPENAI_NAME unset. *)
Definition lab_environ : gmap pystr pystr :=
  <[py "AZURE_OPENAI_4_EVAL_DEPLOYMENT_NAME" := py "gpt-4"]>
  (<[py "AZURE_OPENAI_API_VERSION" := py "2024-02-01"]>
  (<[py "AZURE_SUBSCRIPTION_ID" := py "0000"]>
  (<[py "AZURE_RESOURCE_GROUP" := py "rg"]>
  (<[py "AZURE_AI_PROJECT_NAME" := py "writer"]> ∅)))).

(** A fresh process in the lab environment. *)
Definition lab_world : World := mkWorld lab_environ INVALID_SPAN [] [].

(** Every environment variable unset. *)
Definition bare_world : World := mkWorld ∅ INVALID_SPAN [] [].

(** The lab environment met in the middle of a request: a span of the caller
    is current and the log is not empty. *)
Definition busy_world : World :=
  mkWorld lab_environ (CallerSpan 7) [] [Printed [PyStr (py "started")]].

(** The context of a call outside any span. *)
Definition root_context : Context := mkContext INVALID_SPAN.

(** A value [json.dumps] refuses: a [set]. *)
Definition a_set : pyval := PyObject (py "set").

(** An evaluation-input record. *)
Definition article_data : pyval :=
  PyDict [ (PyStr (py "query"), PyStr (py "q"));
           (PyStr (py "context"), PyStr (py "c"));
           (PyStr (py "response"), PyStr (py "r")) ].

(** A vendor that refuses two of the safety evaluators. *)
Definition denying_vendor (cls : vendor_class) (args : call_args)
    : outcome pyval :=
  match cls with
  | SelfHarmEvaluator | SexualMultimodalEvaluator =>
      Raised (PyException (py "ClientAuthenticationError"))
  | _ => Returned (PyObject (py "object"))
  end.

(** The lab environment with the name of the OpenAI resource set. *)
Definition named_world : World :=
  mkWorld (<[py "AZURE_OPENAI_NAME" := py "contoso"]> lab_environ)
    INVALID_SPAN [] [].

(** The lab environment without the resource group. *)
Definition partial_world : World :=
  mkWorld (delete (py "AZURE_RESOURCE_GROUP") lab_environ) INVALID_SPAN [] [].

(** The JSON text of [article_data]. *)
Definition article_data_json : pystr :=
  record_json
    [ (py "query", encode_basestring_ascii (py "q"));
      (py "context", encode_basestring_ascii (py "c"));
      (py "response", encode_basestring_ascii (py "r")) ].

End Fixtures.
Export Fixtures.

(** ** The embedding at work *)

Module Samples.

Example json_dumps_nested :
  json_dumps
    (PyDict [ (PyStr (py "a"), PyInt (-5));
              (PyInt 3, PyList [ PyNone; PyBool true;
                                 PyStr [233; 10; 128512]%N ]) ])
  = Returned (jq "{'a': -5, '3': [null, true, '\u00e9\n\ud83d\ude00']}").
Proof. vm_compute. reflexivity. Qed.

Example json_dumps_quote :
  json_dumps (PyStr [34%N]) = Returned [34; 92; 34; 34]%N.
Proof. vm_compute. reflexivity. Qed.

Example json_dumps_set :
  json_dumps (PyList [PyInt 1; a_set]) = Raised TypeError.
Proof. vm_compute. reflexivity. Qed.

Example json_dumps_tuple_key :
  json_dumps (PyDict [ (PyObject (py "tuple"), PyInt 1) ]) = Raised TypeError.
Proof. vm_compute. reflexivity. Qed.

Example evaluate_image_sample :
  evaluate_image (PyList []) bare_world
  = (Returned image_result,
     mkWorld ∅ INVALID_SPAN []
       [ Printed [PyStr (py "Image evaluation (lab mode):"); image_result] ]).
Proof. vm_compute. reflexivity. Qed.

Example evaluate_article_sample :
  fst (evaluate_article plain_vendor article_data root_context lab_world)
  = Returned article_result
  /\ length (log (snd (evaluate_article plain_vendor article_data
                         root_context lab_world))) = 20.
Proof. split; vm_compute; reflexivity. Qed.

Example evaluate_article_in_background_sample :
  fst (evaluate_article_in_background plain_vendor
         PyNone PyNone PyNone PyNone PyNone PyNone busy_world)
  = Returned PyNone.
Proof. vm_compute. reflexivity. Qed.

End Samples.

(** ** Reasoning about runs *)

Arguments py : simpl never.
Arguments json_dumps : simpl never.

Create HintDb runs.

Module Runs.

Lemma evolve_evolve st1 evs1 st2 evs2 w :
  evolve st2 evs2 (evolve st1 evs1 w) = evolve st2 (evs1 ++ evs2) w.
Proof. unfold evolve; simpl. by rewrite app_assoc. Qed.

Lemma evolve_id w : evolve (active w) [] w = w.
Proof. destruct w; unfold evolve; simpl. by rewrite app_nil_r. Qed.

Lemma emit_events_evolve evs w : emit_events evs w = evolve (active w) evs w.
Proof. reflexivity. Qed.

Lemma emit_events_app evs1 evs2 w :
  emit_events evs2 (emit_events evs1 w) = emit_events (evs1 ++ evs2) w.
Proof. unfold emit_events; simpl. by rewrite app_assoc. Qed.

Lemma emit_events_nil w : emit_events [] w = w.
Proof. destruct w; unfold emit_events; simpl. by rewrite app_nil_r. Qed.

(** One step of a sequence. *)
Lemma bind_Returned {A B} (m : M A) (k : A -> M B) w a w' :
  m w = (Returned a, w') -> bind m k w = k a w'.
Proof. intros H. unfold bind. by rewrite H. Qed.

Lemma bind_Raised {A B} (m : M A) (k : A -> M B) w e w' :
  m w = (Raised e, w') -> bind m k w = (Raised e, w').
Proof. intros H. unfold bind. by rewrite H. Qed.

(** *** Computations that only append to the log *)

Lemma logs_only_ret {A} (a : A) : logs_only (ret a).
Proof. intros w. exists []. simpl. by rewrite emit_events_nil. Qed.

Lemma logs_only_lift {A} (o : outcome A) : logs_only (lift o).
Proof. intros w. exists []. simpl. by rewrite emit_events_nil. Qed.

Lemma logs_only_emit e : logs_only (emit e).
Proof. intros w. by exists [e]. Qed.

Lemma logs_only_bind {A B} (m : M A) (k : A -> M B) :
  logs_only m -> (forall a, logs_only (k a)) -> logs_only (bind m k).
Proof.
  intros Hm Hk w. destruct (Hm w) as [evs Hw]. unfold bind.
  destruct (m w) as [[a|e] w1]; simpl in *; subst w1.
  - destruct (Hk a (emit_events evs w)) as [evs' Hw'].
    exists (evs ++ evs'). by rewrite Hw', emit_events_app.
  - by exists evs.
Qed.

Lemma logs_only_fun {A} (f : World -> outcome A) :
  logs_only (fun w => (f w, w)).
Proof. intros w. exists []. simpl. by rewrite emit_events_nil. Qed.

Lemma logs_only_os_environ_getitem name : logs_only (os_environ_getitem name).
Proof.
  apply logs_only_bind; [apply logs_only_emit|intros _].
  intros w. exists []. rewrite emit_events_nil. by destruct (environ w !! name).
Qed.

Lemma logs_only_os_getenv name : logs_only (os_getenv name).
Proof.
  apply logs_only_bind; [apply logs_only_emit|intros _].
  apply (logs_only_fun (fun w => Returned (environ w !! name))).
Qed.

Lemma logs_only_get_current_span : logs_only get_current_span.
Proof. intros w. exists []. simpl. by rewrite emit_events_nil. Qed.

Lemma logs_only_evaluate_image messages : logs_only (evaluate_image messages).
Proof.
  apply logs_only_bind; [apply logs_only_emit|intros _; apply logs_only_ret].
Qed.

#[export] Hint Resolve logs_only_ret logs_only_lift logs_only_emit
  logs_only_os_environ_getitem logs_only_os_getenv logs_only_get_current_span
  logs_only_evaluate_image : runs.

Ltac logs_only_tac :=
  repeat first
    [ apply logs_only_bind; [| intros ? ]
    | progress eauto with runs ].

Section VendorRuns.

Variable vendor : vendor_class -> call_args -> outcome pyval.

Lemma logs_only_vendor_new cls args : logs_only (vendor_new vendor cls args).
Proof. unfold vendor_new. logs_only_tac. Qed.

Lemma logs_only_safety_evaluator cls scope :
  logs_only (safety_evaluator vendor cls scope).
Proof. unfold safety_evaluator. logs_only_tac; apply logs_only_vendor_new. Qed.

Lemma logs_only_multimodal_evaluator cls scope :
  logs_only (multimodal_evaluator vendor cls scope).
Proof. unfold multimodal_evaluator. logs_only_tac; apply logs_only_vendor_new. Qed.

Lemma logs_only_ArticleEvaluator__init__ cfg scope :
  logs_only (ArticleEvaluator__init__ vendor cfg scope).
Proof.
  unfold ArticleEvaluator__init__.
  logs_only_tac;
    first [ apply logs_only_vendor_new | apply logs_only_safety_evaluator ].
Qed.

Lemma logs_only_ImageEvaluator__init__ scope :
  logs_only (ImageEvaluator__init__ vendor scope).
Proof.
  unfold ImageEvaluator__init__.
  logs_only_tac; apply logs_only_multimodal_evaluator.
Qed.

End VendorRuns.

(** *** Leaving a span *)

Lemma set_active_evolve st w : set_active st w = evolve st [] w.
Proof. unfold set_active, evolve. by rewrite app_nil_r. Qed.

Lemma emit_events_of_evolve evs' st evs w :
  emit_events evs' (evolve st evs w) = evolve st (evs ++ evs') w.
Proof. unfold emit_events, evolve; simpl. by rewrite app_assoc. Qed.

Lemma end_span_run st sp evs status w :
  end_span (length st) status (evolve (st ++ [sp]) evs w)
  = (Returned tt, evolve st (evs ++ [SpanEnded (set_status status sp)]) w).
Proof.
  unfold end_span. simpl active.
  rewrite list_lookup_middle by done.
  rewrite take_app_length.
  rewrite set_active_evolve, evolve_evolve, emit_events_of_evolve.
  by rewrite app_nil_r.
Qed.

Lemma start_as_current_span_run {A} name ctx (block : nat -> M A) w o sp evs :
  block (length (active w))
        (evolve (active w ++ [mkSpan name ctx ∅ None]) [] w)
  = (o, evolve (active w ++ [sp]) evs w) ->
  start_as_current_span name ctx block w
  = (o, emit_events (evs ++ [SpanEnded (set_status (raised o) sp)]) w).
Proof.
  intros Hblock. unfold start_as_current_span.
  rewrite set_active_evolve, Hblock, end_span_run.
  by rewrite emit_events_evolve.
Qed.

(** *** Computations inside the block of a span *)

Lemma same_span_refl key sp : same_span key sp sp.
Proof. by repeat split. Qed.

Lemma same_span_trans key sp1 sp2 sp3 :
  same_span key sp1 sp2 -> same_span key sp2 sp3 -> same_span key sp1 sp3.
Proof. intros (?&?&?) (?&?&?). repeat split; congruence. Qed.

Lemma in_span_logs_only key d {A} (m : M A) : logs_only m -> in_span key d m.
Proof.
  intros Hm st sp evs w _. destruct (Hm (evolve (st ++ [sp]) evs w)) as [evs' H].
  exists sp, evs'. rewrite H, emit_events_of_evolve.
  split; [done|apply same_span_refl].
Qed.

Lemma in_span_bind key d {A B} (m : M A) (k : A -> M B) :
  in_span key d m -> (forall a, in_span key d (k a)) -> in_span key d (bind m k).
Proof.
  intros Hm Hk st sp evs w Hd.
  destruct (Hm st sp evs w Hd) as (sp1 & evs1 & Hw & Hs1). unfold bind.
  destruct (m _) as [[a|e] w1]; simpl in *; subst w1.
  - destruct (Hk a st sp1 (evs ++ evs1) w Hd) as (sp2 & evs2 & Hw2 & Hs2).
    exists sp2, (evs1 ++ evs2). rewrite Hw2, app_assoc.
    split; [done|by eapply same_span_trans].
  - by exists sp1, evs1.
Qed.

Lemma set_attribute_run st sp evs w key value :
  set_attribute (length st) key value (evolve (st ++ [sp]) evs w)
  = (Returned tt, evolve (st ++ [set_attr key value sp]) evs w).
Proof.
  unfold set_attribute. simpl active.
  replace (length st) with (length st + 0) at 1 by lia.
  rewrite alter_app_r. simpl.
  by rewrite set_active_evolve, evolve_evolve, app_nil_r.
Qed.

Lemma in_span_set_attribute key d key' value :
  key' <> key -> in_span key d (set_attribute d key' value).
Proof.
  intros Hne st sp evs w <-. rewrite set_attribute_run.
  exists (set_attr key' value sp), []. rewrite app_nil_r.
  split; [done|]. repeat split. simpl. by rewrite lookup_insert_ne.
Qed.

(** *** Outcomes that depend on the environment only *)

Lemma env_sim_bind {A B} (m1 m2 : M A) (k1 k2 : A -> M B) :
  env_sim m1 m2 -> (forall a, env_sim (k1 a) (k2 a)) ->
  env_sim (bind m1 k1) (bind m2 k2).
Proof.
  intros Hm Hk w1 w2 Hw. destruct (Hm w1 w2 Hw) as [Ho He]. unfold bind.
  destruct (m1 w1) as [[a1|e1] w1'], (m2 w2) as [[a2|e2] w2'];
    simpl in *; simplify_eq; [by apply Hk|done].
Qed.

Lemma env_sim_ret {A} (a : A) : env_sim (ret a) (ret a).
Proof. by intros w1 w2 Hw. Qed.

Lemma env_sim_lift {A} (o : outcome A) : env_sim (lift o) (lift o).
Proof. by intros w1 w2 Hw. Qed.

Lemma env_sim_emit e : env_sim (emit e) (emit e).
Proof. by intros w1 w2 Hw. Qed.

Lemma env_sim_os_environ_getitem name :
  env_sim (os_environ_getitem name) (os_environ_getitem name).
Proof.
  apply env_sim_bind; [apply env_sim_emit|intros _].
  intros w1 w2 Hw. rewrite Hw. by destruct (environ w2 !! name).
Qed.

Lemma env_sim_os_getenv name : env_sim (os_getenv name) (os_getenv name).
Proof.
  apply env_sim_bind; [apply env_sim_emit|intros _].
  intros w1 w2 Hw. by rewrite Hw.
Qed.

Lemma env_sim_set_attribute d1 d2 key value :
  env_sim (set_attribute d1 key value) (set_attribute d2 key value).
Proof. by intros w1 w2 Hw. Qed.

Lemma env_sim_start_as_current_span {A} name ctx1 ctx2 (block : nat -> M A) :
  (forall d1 d2, env_sim (block d1) (block d2)) ->
  env_sim (start_as_current_span name ctx1 block)
          (start_as_current_span name ctx2 block).
Proof.
  intros Hb w1 w2 Hw. unfold start_as_current_span.
  destruct (Hb (length (active w1)) (length (active w2))
              (set_active (active w1 ++ [mkSpan name ctx1 ∅ None]) w1)
              (set_active (active w2 ++ [mkSpan name ctx2 ∅ None]) w2) Hw)
    as [Ho He].
  destruct (block _ _) as [o1 w1'], (block _ _) as [o2 w2']; simpl in *.
  unfold end_span.
  destruct (active w1' !! _), (active w2' !! _); simpl; done.
Qed.

(** *** What a computation can return *)

Lemma results_in_ret {A} (P : A -> Prop) a : P a -> results_in P (ret a).
Proof. intros HP w a' [= <-]. done. Qed.

Lemma results_in_bind {A B} (P : B -> Prop) (m : M A) (k : A -> M B) :
  (forall a, results_in P (k a)) -> results_in P (bind m k).
Proof.
  intros Hk w b. unfold bind. destruct (m w) as [[a|e] w1]; [apply Hk|done].
Qed.

Lemma results_in_start_as_current_span {A} (P : A -> Prop) name ctx block :
  (forall d, results_in P (block d)) ->
  results_in P (start_as_current_span name ctx block).
Proof.
  intros Hb w a. unfold start_as_current_span.
  pose proof (Hb (length (active w))
                (set_active (active w ++ [mkSpan name ctx ∅ None]) w) a) as H.
  destruct (block _ _) as [o w1]. destruct (end_span _ _ _) as [? w2].
  exact H.
Qed.

End Runs.

(** ** Runs of the module's functions *)

Module ModuleRuns.
Import Runs.

Lemma json_dumps_article_result :
  json_dumps article_result = Returned article_result_json.
Proof. vm_compute. reflexivity. Qed.

Lemma os_environ_getitem_Some name v st evs w :
  environ w !! name = Some v ->
  os_environ_getitem name (evolve st evs w)
  = (Returned v, evolve st (evs ++ [EnvRead name]) w).
Proof.
  intros H. unfold os_environ_getitem, bind, emit. simpl environ.
  by rewrite H, emit_events_of_evolve.
Qed.

Lemma os_environ_getitem_None name st evs w :
  environ w !! name = None ->
  os_environ_getitem name (evolve st evs w)
  = (Raised (KeyError name), evolve st (evs ++ [EnvRead name]) w).
Proof.
  intros H. unfold os_environ_getitem, bind, emit. simpl environ.
  by rewrite H, emit_events_of_evolve.
Qed.

Lemma os_getenv_run name st evs w :
  os_getenv name (evolve st evs w)
  = (Returned (environ w !! name), evolve st (evs ++ [EnvRead name]) w).
Proof.
  unfold os_getenv, bind, emit. simpl environ.
  by rewrite emit_events_of_evolve.
Qed.

Lemma print_run args st evs w :
  print args (evolve st evs w)
  = (Returned tt, evolve st (evs ++ [Printed args]) w).
Proof. unfold print, emit. by rewrite emit_events_of_evolve. Qed.

Lemma lift_run {A} (o : outcome A) w : lift o w = (o, w).
Proof. reflexivity. Qed.

(** [step tac] runs the first computation of a sequence with [tac]. *)
Ltac step tac :=
  eapply eq_trans; [ eapply bind_Returned; tac | cbv beta zeta ].

(** [stop tac] ends the run at the first computation, which raises. *)
Ltac stop tac :=
  eapply eq_trans; [ eapply bind_Raised; tac | ].

(** [run_block] runs the block of [evaluate_article] as far as the
    hypotheses on the environment tell the outcome of its reads. *)
Ltac run_step :=
  lazymatch goal with
  | |- bind (lift _) _ _ = _ => step ltac:(apply lift_run)
  | |- bind (set_attribute _ _ _) _ _ = _ =>
      step ltac:(apply set_attribute_run)
  | |- bind (os_environ_getitem _) _ _ = _ =>
      step ltac:(apply os_environ_getitem_Some; eassumption)
  | |- bind (os_getenv _) _ _ = _ => step ltac:(apply os_getenv_run)
  | |- bind (print _) _ _ = _ => step ltac:(apply print_run)
  end.

Ltac run_block := repeat run_step.

(** The run that ends at a read of an unset variable. *)
Ltac run_to_KeyError Hjson :=
  eexists; split; cycle 1;
  [ erewrite start_as_current_span_run; cycle 1;
    [ rewrite Hjson; run_block;
      stop ltac:(apply os_environ_getitem_None; eassumption); reflexivity
    | reflexivity ]
  | reflexivity ].

(** Whether the variable [name] is set, in a hypothesis [H] on
    [first_unset]: if it is not, [name] is the first unset one. *)
Ltac read_variable w name H Hjson :=
  destruct (environ w !! name) as [?|] eqn:?;
  [ rewrite bool_decide_eq_false_2 in H by done
  | rewrite bool_decide_eq_true_2 in H by done; injection H as <-;
    run_to_KeyError Hjson ].

Section ArticleRuns.

Variable vendor : vendor_class -> call_args -> outcome pyval.

Lemma vendor_new_run cls args w :
  vendor_new vendor cls args w
  = (vendor cls args, emit_events [VendorCall cls args] w).
Proof. reflexivity. Qed.

Hypothesis vendor_ok : vendor_constructs vendor.

Lemma vendor_new_returns cls args :
  exists obj, forall w,
    vendor_new vendor cls args w
    = (Returned obj, emit_events [VendorCall cls args] w).
Proof.
  destruct (vendor_ok cls args) as [obj H]. exists obj. intros w.
  by rewrite vendor_new_run, H.
Qed.

Lemma safety_evaluator_returns cls scope :
  exists obj calls, forallb is_vendor_call calls = true /\
    forall w, safety_evaluator vendor cls scope w
              = (Returned obj, emit_events calls w).
Proof.
  unfold safety_evaluator.
  destruct (vendor_new_returns DefaultAzureCredential (mkArgs [] []))
    as [cred Hcred].
  destruct (vendor_new_returns cls
              (mkArgs [] [ (py "azure_ai_project", scope);
                           (py "credential", cred) ])) as [obj Hobj].
  eexists obj, [_; _]. split.
  2: { intros w. step ltac:(apply Hcred). by rewrite Hobj, emit_events_app. }
  reflexivity.
Qed.

(** With constructors that return, so does the construction of the article
    evaluator: twelve vendor calls, the same in every world. *)
Lemma ArticleEvaluator__init__returns cfg scope :
  exists evaluator calls, forallb is_vendor_call calls = true /\
    forall w, ArticleEvaluator__init__ vendor cfg scope w
              = (Returned evaluator, emit_events calls w).
Proof.
  unfold ArticleEvaluator__init__.
  destruct (vendor_new_returns RelevanceEvaluator (mkArgs [cfg] [])) as [o1 H1].
  destruct (vendor_new_returns FluencyEvaluator (mkArgs [cfg] [])) as [o2 H2].
  destruct (vendor_new_returns CoherenceEvaluator (mkArgs [cfg] [])) as [o3 H3].
  destruct (vendor_new_returns GroundednessEvaluator (mkArgs [cfg] []))
    as [o4 H4].
  destruct (safety_evaluator_returns ViolenceEvaluator scope)
    as (o5 & c5 & V5 & H5).
  destruct (safety_evaluator_returns HateUnfairnessEvaluator scope)
    as (o6 & c6 & V6 & H6).
  destruct (safety_evaluator_returns SelfHarmEvaluator scope)
    as (o7 & c7 & V7 & H7).
  destruct (safety_evaluator_returns SexualEvaluator scope)
    as (o8 & c8 & V8 & H8).
  eexists _, ([_; _; _; _] ++ c5 ++ c6 ++ c7 ++ c8). split.
  2: { intros w.
       step ltac:(apply H1). step ltac:(apply H2).
       step ltac:(apply H3). step ltac:(apply H4).
       step ltac:(apply H5). step ltac:(apply H6).
       step ltac:(apply H7). step ltac:(apply H8).
       unfold ret. rewrite !emit_events_app. do 2 f_equal. }
  rewrite !forallb_app, V5, V6, V7, V8. reflexivity.
Qed.

(** The complete run: the six reads of the environment, the vendor calls of
    the evaluator's construction, the print, and the span with its two
    attributes. *)
Lemma evaluate_article_returns data ctx w s :
  json_dumps data = Returned s ->
  env_configured (environ w) ->
  exists reads calls,
    forallb is_env_read reads = true /\
    forallb is_vendor_call calls = true /\
    evaluate_article vendor data ctx w
    = (Returned article_result,
       emit_events
         (reads ++ calls
          ++ [ Printed [PyStr (py "results: "); PyStr article_result_json];
               SpanEnded (run_evaluators_span ctx s) ])
         w).
Proof.
  intros Hjson Henv.
  apply Forall_cons in Henv as [[v1 E1] Henv].
  apply Forall_cons in Henv as [[v2 E2] Henv].
  apply Forall_cons in Henv as [[v3 E3] Henv].
  apply Forall_cons in Henv as [[v4 E4] Henv].
  apply Forall_cons in Henv as [[v5 E5] _].
  set (name := environ w !! py "AZURE_OPENAI_NAME").
  destruct (ArticleEvaluator__init__returns
    (PyDict [
        (PyStr (py "azure_deployment"), PyStr v1);
        (PyStr (py "api_version"), PyStr v2);
        (PyStr (py "azure_endpoint"),
         PyStr (py "https://" ++ format_value name
                ++ py ".cognitiveservices.azure.com/")) ])
    (PyDict [
        (PyStr (py "subscription_id"), PyStr v3);
        (PyStr (py "resource_group_name"), PyStr v4);
        (PyStr (py "project_name"), PyStr v5) ]))
    as (evaluator & calls & Hcalls & Hinit).
  eexists [_; _; _; _; _; _], calls. split; [|split; [exact Hcalls|]].
  2: { unfold evaluate_article.
       erewrite start_as_current_span_run.
       2: { rewrite Hjson. run_block.
            step ltac:(rewrite Hinit, emit_events_of_evolve; reflexivity).
            rewrite json_dumps_article_result. run_block.
            reflexivity. }
       simpl raised. f_equal. f_equal.
       rewrite <- !app_assoc. reflexivity. }
  reflexivity.
Qed.

(** The run that stops at the first unset variable. *)
Lemma evaluate_article_unset data ctx w s name :
  json_dumps data = Returned s ->
  first_unset (environ w) = Some name ->
  exists reads,
    forallb is_env_read reads = true /\
    evaluate_article vendor data ctx w
    = (Raised (KeyError name),
       emit_events
         (reads
          ++ [ SpanEnded
                 (mkSpan (py "run_evaluators") ctx
                    (<[py "inputs" := PyStr s]> ∅)
                    (Some (KeyError name))) ])
         w).
Proof.
  intros Hjson Hunset.
  unfold first_unset, required_env in Hunset. cbn [find] in Hunset.
  unfold evaluate_article.
  read_variable w (py "AZURE_OPENAI_4_EVAL_DEPLOYMENT_NAME") Hunset Hjson.
  read_variable w (py "AZURE_OPENAI_API_VERSION") Hunset Hjson.
  read_variable w (py "AZURE_SUBSCRIPTION_ID") Hunset Hjson.
  read_variable w (py "AZURE_RESOURCE_GROUP") Hunset Hjson.
  read_variable w (py "AZURE_AI_PROJECT_NAME") Hunset Hjson.
  discriminate Hunset.
Qed.

(** The run that stops at the serialisation of the data. *)
Lemma evaluate_article_rejects data ctx w e :
  json_dumps data = Raised e ->
  evaluate_article vendor data ctx w
  = (Raised e,
     emit_events
       [ SpanEnded (mkSpan (py "run_evaluators") ctx ∅ (Some e)) ] w).
Proof.
  intros Hjson. unfold evaluate_article.
  erewrite start_as_current_span_run.
  2: { rewrite Hjson. reflexivity. }
  reflexivity.
Qed.

(** *** Properties of every run of [evaluate_article] *)

Lemma start_as_current_span_snd {A} name ctx (block : nat -> M A) w sp evs :
  snd (block (length (active w))
         (evolve (active w ++ [mkSpan name ctx ∅ None]) [] w))
  = evolve (active w ++ [sp]) evs w ->
  exists o,
    start_as_current_span name ctx block w
    = (o, emit_events (evs ++ [SpanEnded (set_status (raised o) sp)]) w).
Proof.
  intros H.
  destruct (block _ _) as [o w1] eqn:Hblock. simpl in H. subst w1.
  exists o. by apply start_as_current_span_run.
Qed.

Lemma set_attribute_then {A} key value (k : unit -> M A) st sp evs w :
  in_span key (length st) (k tt) ->
  exists sp' evs',
    snd (bind (set_attribute (length st) key value) k
           (evolve (st ++ [sp]) evs w))
    = evolve (st ++ [sp']) (evs ++ evs') w
    /\ span_name sp' = span_name sp
    /\ span_context sp' = span_context sp
    /\ span_attributes sp' !! key = Some value.
Proof.
  intros Hk.
  destruct (Hk st (set_attr key value sp) evs w eq_refl)
    as (sp' & evs' & Hw & Hn & Hc & Ha).
  exists sp', evs'.
  rewrite (bind_Returned _ _ _ _ _ (set_attribute_run st sp evs w key value)).
  repeat split; try done.
  rewrite Ha. simpl. by rewrite lookup_insert_eq.
Qed.

Ltac in_span_tac :=
  cbv beta zeta;
  repeat first
    [ apply in_span_set_attribute; discriminate
    | apply in_span_logs_only;
      first [ apply logs_only_ArticleEvaluator__init__
            | solve [eauto with runs] ]
    | apply in_span_bind; [| intros ? ] ].

(** Every run ends by ending the span, whatever happens in the block. *)
Lemma evaluate_article_span data ctx w :
  exists o evs sp,
    evaluate_article vendor data ctx w
    = (o, emit_events (evs ++ [SpanEnded sp]) w)
    /\ span_name sp = py "run_evaluators"
    /\ span_context sp = ctx
    /\ span_status sp = raised o
    /\ (forall s, json_dumps data = Returned s ->
          span_attributes sp !! py "inputs" = Some (PyStr s)).
Proof.
  unfold evaluate_article.
  destruct (json_dumps data) as [s|e] eqn:Hjson.
  - match goal with
    | |- context [start_as_current_span _ _ ?b _] => set (block := b)
    end.
    assert (exists sp evs,
      snd (block (length (active w))
             (evolve (active w ++ [run_evaluators_span0 ctx]) [] w))
      = evolve (active w ++ [sp]) ([] ++ evs) w
      /\ span_name sp = span_name (run_evaluators_span0 ctx)
      /\ span_context sp = span_context (run_evaluators_span0 ctx)
      /\ span_attributes sp !! py "inputs" = Some (PyStr s))
      as (sp & evs & Hw & Hn & Hc & Ha).
    { subst block. cbv beta. unfold bind at 1. unfold lift at 1.
      cbv beta iota. apply set_attribute_then. in_span_tac. }
    destruct (start_as_current_span_snd _ _ _ _ _ _ Hw) as [o Ho].
    exists o, evs, (set_status (raised o) sp).
    split; [exact Ho|]. repeat split; try done.
    by intros ? [= <-].
  - exists (Raised e), [], (mkSpan (py "run_evaluators") ctx ∅ (Some e)).
    split; [|repeat split; try done].
    erewrite start_as_current_span_run.
    2: { reflexivity. }
    reflexivity.
Qed.

Lemma logs_only_evaluate_article data ctx :
  logs_only (evaluate_article vendor data ctx).
Proof.
  intros w. destruct (evaluate_article_span data ctx w) as (o & evs & sp & H & _).
  rewrite H. by eexists.
Qed.

Lemma logs_only_evaluate_article_in_background rc pc ac research products article :
  logs_only
    (evaluate_article_in_background vendor rc pc ac research products article).
Proof.
  unfold evaluate_article_in_background.
  logs_only_tac. apply logs_only_evaluate_article.
Qed.

Ltac env_sim_tac :=
  cbv beta zeta;
  repeat first
    [ apply env_sim_set_attribute | apply env_sim_ret | apply env_sim_lift
    | apply env_sim_emit | apply env_sim_os_environ_getitem
    | apply env_sim_os_getenv
    | apply env_sim_bind; [| intros ? ] ].

Lemma env_sim_evaluate_article data ctx1 ctx2 :
  env_sim (evaluate_article vendor data ctx1) (evaluate_article vendor data ctx2).
Proof.
  unfold evaluate_article. apply env_sim_start_as_current_span.
  intros d1 d2.
  unfold ArticleEvaluator__init__, safety_evaluator, vendor_new, print.
  env_sim_tac.
Qed.

Lemma env_sim_evaluate_image messages1 messages2 :
  env_sim (evaluate_image messages1) (evaluate_image messages2).
Proof. unfold evaluate_image, print. env_sim_tac. Qed.

Lemma results_in_evaluate_article data ctx :
  results_in (fun r => r = article_result) (evaluate_article vendor data ctx).
Proof.
  unfold evaluate_article. apply results_in_start_as_current_span. intros d.
  repeat (apply results_in_bind; intros ?).
  by apply results_in_ret.
Qed.

End ArticleRuns.

(** *** [json.dumps] on records *)

Lemma json_dumps_dict items :
  json_dumps (PyDict items)
  = obind (dict_chunks items)
      (fun parts => Returned (py "{" ++ join (py ", ") parts ++ py "}")).
Proof.
  destruct items; reflexivity.
Qed.

Lemma json_dumps_record (fields : list (pystr * pyval * pystr)) :
  Forall (fun '(k, v, s) => json_dumps v = Returned s) fields ->
  json_dumps (PyDict (map (fun '(k, v, s) => (PyStr k, v)) fields))
  = Returned (record_json (map (fun '(k, v, s) => (k, s)) fields)).
Proof.
  intros H. rewrite json_dumps_dict. unfold record_json.
  assert (dict_chunks (map (fun '(k, v, s) => (PyStr k, v)) fields)
          = Returned (map (fun '(k, s) =>
                        encode_basestring_ascii k ++ py ": " ++ s)
                       (map (fun '(k, v, s) => (k, s)) fields))) as ->.
  { induction H as [|[[k v] s] rest Hv _ IH]; [done|].
    cbn [map dict_chunks json_key obind]. by rewrite Hv, IH. }
  reflexivity.
Qed.

Section Background.

Variable vendor : vendor_class -> call_args -> outcome pyval.

Lemma evaluate_article_in_background_run
    rc pc ac research products article query context response w :
  json_dumps (PyDict [
      (PyStr (py "research_context"), rc);
      (PyStr (py "product_context"), pc);
      (PyStr (py "assignment_context"), ac) ]) = Returned query ->
  json_dumps (PyDict [
      (PyStr (py "research"), research);
      (PyStr (py "products"), products) ]) = Returned context ->
  json_dumps article = Returned response ->
  evaluate_article_in_background vendor rc pc ac research products article w
  = let '(o, w') :=
      evaluate_article vendor
        (PyDict [
           (PyStr (py "query"), PyStr query);
           (PyStr (py "context"), PyStr context);
           (PyStr (py "response"), PyStr response) ])
        (set_span_in_context (current_span w)) w in
    (obind o (fun _ => Returned PyNone), w').
Proof.
  intros Hq Hc Hr. unfold evaluate_article_in_background.
  step ltac:(reflexivity).
  rewrite Hq, Hc, Hr.
  step ltac:(apply lift_run). step ltac:(apply lift_run).
  step ltac:(apply lift_run).
  unfold bind. by destruct (evaluate_article _ _ _ _) as [[r|e] w'].
Qed.

End Background.

End ModuleRuns.
Export Runs.
Export ModuleRuns.

Lemma plain_vendor_constructs : vendor_constructs plain_vendor.
Proof. intros cls args. by eexists. Qed.

Lemma lab_environ_configured : env_configured lab_environ.
Proof. repeat constructor; eexists; vm_compute; reflexivity. Qed.

Lemma first_unset_None env : first_unset env = None -> env_configured env.
Proof.
  intros H. apply Forall_forall. intros name Hin.
  apply list_elem_of_In in Hin.
  pose proof (find_none _ _ H name Hin) as Hf. simpl in Hf.
  apply bool_decide_eq_false in Hf. by apply not_eq_None_Some.
Qed.

Lemma first_unset_Some env name :
  first_unset env = Some name -> name ∈ required_env /\ env !! name = None.
Proof.
  intros H. apply find_some in H as [Hin Hf].
  split; [by apply list_elem_of_In|]. by apply bool_decide_eq_true in Hf.
Qed.

Lemma unset_first_unset env name :
  name ∈ required_env -> env !! name = None ->
  exists first, first_unset env = Some first.
Proof.
  intros Hin Hnone. destruct (first_unset env) as [first|] eqn:H; [by eexists|].
  apply first_unset_None in H.
  pose proof (proj1 (Forall_forall _ _) H name Hin) as [v Hv]. congruence.
Qed.

Lemma env_reads_no_span evs :
  forallb is_env_read evs = true -> existsb is_span evs = false.
Proof. induction evs as [|[] evs IH]; simpl; auto; discriminate. Qed.

Lemma vendor_calls_no_span evs :
  forallb is_vendor_call evs = true -> existsb is_span evs = false.
Proof. induction evs as [|[] evs IH]; simpl; auto; discriminate. Qed.

(** ** The construction of the evaluators *)

Module Construction.

Section WithVendor.

Variable vendor : vendor_class -> call_args -> outcome pyval.

Lemma constructs_ret {A} (a : A) : constructs vendor (ret a).
Proof.
  exists (Returned a), []. split; [|constructor].
  intros w. unfold ret. by rewrite emit_events_nil.
Qed.

Lemma constructs_vendor_new cls args :
  constructs vendor (vendor_new vendor cls args).
Proof.
  exists (vendor cls args), [VendorCall cls args]. split.
  - intros w. apply vendor_new_run.
  - destruct (vendor cls args) as [obj|e] eqn:H; simpl.
    + repeat constructor. by exists obj.
    + exists [], cls, args. repeat split; [constructor|done].
Qed.

Lemma constructs_bind {A B} (m : M A) (k : A -> M B) :
  constructs vendor m -> (forall a, constructs vendor (k a)) ->
  constructs vendor (bind m k).
Proof.
  intros (o1 & calls1 & Hm & T1) Hk. destruct o1 as [a|e].
  - destruct (Hk a) as (o2 & calls2 & Hka & T2).
    exists o2, (calls1 ++ calls2). split.
    + intros w. rewrite (bind_Returned _ _ _ _ _ (Hm w)), Hka.
      by rewrite emit_events_app.
    + destruct o2 as [b|e]; simpl in *.
      * by apply Forall_app.
      * destruct T2 as (before & cls & args & -> & Hb & He).
        exists (calls1 ++ before), cls, args.
        rewrite app_assoc. repeat split; [by apply Forall_app|done].
  - exists (Raised e), calls1. split; [|exact T1].
    intros w. by rewrite (bind_Raised _ _ _ _ _ (Hm w)).
Qed.

Ltac constructs_tac :=
  cbv beta zeta;
  repeat first
    [ apply constructs_vendor_new
    | apply constructs_ret
    | apply constructs_bind; [| intros ? ] ].

Lemma constructs_ArticleEvaluator__init__ cfg scope :
  constructs vendor (ArticleEvaluator__init__ vendor cfg scope).
Proof. unfold ArticleEvaluator__init__, safety_evaluator. constructs_tac. Qed.

Lemma constructs_ImageEvaluator__init__ scope :
  constructs vendor (ImageEvaluator__init__ vendor scope).
Proof. unfold ImageEvaluator__init__, multimodal_evaluator. constructs_tac. Qed.

(** The calls of a construction are vendor calls. *)
Lemma construction_trace_vendor_calls {A} (o : outcome A) calls :
  construction_trace vendor o calls -> forallb is_vendor_call calls = true.
Proof.
  assert (forall l, Forall (call_returned vendor) l ->
                    forallb is_vendor_call l = true) as Hall.
  { induction 1 as [|[] l H _ IH]; simpl; try done. }
  destruct o as [a|e]; simpl; [apply Hall|].
  intros (before & cls & args & -> & Hb & _).
  rewrite forallb_app, (Hall _ Hb). reflexivity.
Qed.

(** A run of a construction, from any world. *)
Lemma constructs_run {A} (m : M A) w o w' :
  constructs vendor m -> m w = (o, w') ->
  exists calls,
    w' = emit_events calls w /\ construction_trace vendor o calls.
Proof.
  intros (o0 & calls & Hm & T) H. rewrite Hm in H. injection H as <- <-.
  by exists calls.
Qed.

(** The run of a construction whose calls all return. *)
Lemma safety_evaluator_run cls scope credential obj w :
  vendor DefaultAzureCredential (mkArgs [] []) = Returned credential ->
  vendor cls
    (mkArgs [] [ (py "azure_ai_project", scope); (py "credential", credential) ])
  = Returned obj ->
  safety_evaluator vendor cls scope w
  = (Returned obj,
     emit_events [credential_call; safety_call cls scope credential] w).
Proof.
  intros Hc Ho. unfold safety_evaluator.
  step ltac:(rewrite vendor_new_run, Hc; reflexivity).
  by rewrite vendor_new_run, Ho, emit_events_app.
Qed.

Lemma multimodal_evaluator_run cls scope credential obj w :
  vendor DefaultAzureCredential (mkArgs [] []) = Returned credential ->
  vendor cls
    (mkArgs [] [ (py "credential", credential); (py "azure_ai_project", scope) ])
  = Returned obj ->
  multimodal_evaluator vendor cls scope w
  = (Returned obj,
     emit_events [credential_call; multimodal_call cls scope credential] w).
Proof.
  intros Hc Ho. unfold multimodal_evaluator.
  step ltac:(rewrite vendor_new_run, Hc; reflexivity).
  by rewrite vendor_new_run, Ho, emit_events_app.
Qed.

Lemma ArticleEvaluator__init__run cfg scope w
    relevance fluency coherence groundedness credential
    violence hate_unfairness self_harm sexual :
  vendor RelevanceEvaluator (mkArgs [cfg] []) = Returned relevance ->
  vendor FluencyEvaluator (mkArgs [cfg] []) = Returned fluency ->
  vendor CoherenceEvaluator (mkArgs [cfg] []) = Returned coherence ->
  vendor GroundednessEvaluator (mkArgs [cfg] []) = Returned groundedness ->
  vendor DefaultAzureCredential (mkArgs [] []) = Returned credential ->
  vendor ViolenceEvaluator
    (mkArgs [] [ (py "azure_ai_project", scope); (py "credential", credential) ])
  = Returned violence ->
  vendor HateUnfairnessEvaluator
    (mkArgs [] [ (py "azure_ai_project", scope); (py "credential", credential) ])
  = Returned hate_unfairness ->
  vendor SelfHarmEvaluator
    (mkArgs [] [ (py "azure_ai_project", scope); (py "credential", credential) ])
  = Returned self_harm ->
  vendor SexualEvaluator
    (mkArgs [] [ (py "azure_ai_project", scope); (py "credential", credential) ])
  = Returned sexual ->
  ArticleEvaluator__init__ vendor cfg scope w
  = (Returned
       (mkArticleEvaluator
          [ (py "relevance", relevance);
            (py "fluency", fluency);
            (py "coherence", coherence);
            (py "groundedness", groundedness);
            (py "violence", violence);
            (py "hate_unfairness", hate_unfairness);
            (py "self_harm", self_harm);
            (py "sexual", sexual);
            (py "friendliness", PyObject (py "FriendlinessEvaluator")) ]
          scope),
     emit_events (article_construction cfg scope credential) w).
Proof.
  intros H1 H2 H3 H4 Hc H5 H6 H7 H8.
  unfold ArticleEvaluator__init__.
  step ltac:(rewrite vendor_new_run, H1; reflexivity).
  step ltac:(rewrite vendor_new_run, H2; reflexivity).
  step ltac:(rewrite vendor_new_run, H3; reflexivity).
  step ltac:(rewrite vendor_new_run, H4; reflexivity).
  step ltac:(apply (safety_evaluator_run _ _ _ _ _ Hc H5)).
  step ltac:(apply (safety_evaluator_run _ _ _ _ _ Hc H6)).
  step ltac:(apply (safety_evaluator_run _ _ _ _ _ Hc H7)).
  step ltac:(apply (safety_evaluator_run _ _ _ _ _ Hc H8)).
  unfold ret. by rewrite !emit_events_app.
Qed.

Lemma ImageEvaluator__init__run scope w
    credential violence self_harm hate_unfairness sexual protected_material :
  vendor DefaultAzureCredential (mkArgs [] []) = Returned credential ->
  vendor ViolenceMultimodalEvaluator
    (mkArgs [] [ (py "credential", credential); (py "azure_ai_project", scope) ])
  = Returned violence ->
  vendor SelfHarmMultimodalEvaluator
    (mkArgs [] [ (py "credential", credential); (py "azure_ai_project", scope) ])
  = Returned self_harm ->
  vendor HateUnfairnessMultimodalEvaluator
    (mkArgs [] [ (py "credential", credential); (py "azure_ai_project", scope) ])
  = Returned hate_unfairness ->
  vendor SexualMultimodalEvaluator
    (mkArgs [] [ (py "credential", credential); (py "azure_ai_project", scope) ])
  = Returned sexual ->
  vendor ProtectedMaterialMultimodalEvaluator
    (mkArgs [] [ (py "credential", credential); (py "azure_ai_project", scope) ])
  = Returned protected_material ->
  ImageEvaluator__init__ vendor scope w
  = (Returned
       (mkImageEvaluator
          [ (py "violence", violence);
            (py "self_harm", self_harm);
            (py "hate_unfairness", hate_unfairness);
            (py "sexual", sexual);
            (py "protected_material", protected_material) ]
          scope),
     emit_events (image_construction scope credential) w).
Proof.
  intros Hc H1 H2 H3 H4 H5.
  unfold ImageEvaluator__init__.
  step ltac:(apply (multimodal_evaluator_run _ _ _ _ _ Hc H1)).
  step ltac:(apply (multimodal_evaluator_run _ _ _ _ _ Hc H2)).
  step ltac:(apply (multimodal_evaluator_run _ _ _ _ _ Hc H3)).
  step ltac:(apply (multimodal_evaluator_run _ _ _ _ _ Hc H4)).
  step ltac:(apply (multimodal_evaluator_run _ _ _ _ _ Hc H5)).
  unfold ret. by rewrite !emit_events_app.
Qed.

(** Whatever follows, the construction of the article evaluator starts by
    calling the relevance evaluator's constructor on the configuration. *)
Lemma ArticleEvaluator__init__first_call cfg scope :
  exists o rest,
    (forall w, ArticleEvaluator__init__ vendor cfg scope w
               = (o, emit_events (quality_call RelevanceEvaluator cfg :: rest) w))
    /\ construction_trace vendor o (quality_call RelevanceEvaluator cfg :: rest).
Proof.
  unfold ArticleEvaluator__init__.
  match goal with
  | |- context [bind (vendor_new vendor RelevanceEvaluator ?a) ?k] =>
      set (continuation := k)
  end.
  destruct (vendor RelevanceEvaluator (mkArgs [cfg] [])) as [obj|e] eqn:Hv.
  - assert (constructs vendor (continuation obj)) as (o & rest & Hk & T).
    { subst continuation. unfold safety_evaluator. constructs_tac. }
    exists o, rest. split.
    + intros w. unfold bind at 1. rewrite vendor_new_run, Hv, Hk.
      by rewrite emit_events_app.
    + destruct o as [a|e]; simpl in *.
      * constructor; [by exists obj|done].
      * destruct T as (before & cls & args & -> & Hb & He).
        exists (quality_call RelevanceEvaluator cfg :: before), cls, args.
        repeat split; [|done]. constructor; [by exists obj|done].
  - exists (Raised e), []. split.
    + intros w. unfold bind at 1. by rewrite vendor_new_run, Hv.
    + exists [], RelevanceEvaluator, (mkArgs [cfg] []).
      repeat split; [constructor|done].
Qed.

End WithVendor.

End Construction.
Export Construction.

(** ** Traces of the module's functions *)

Module Traces.

(** *** Records that [json.dumps] refuses *)

(** A dict display with [str] keys is refused when one of its values is. *)
Lemma json_dumps_record_refused (fields : list (pystr * pyval)) :
  Exists (fun kv => ~ json_serializable (snd kv)) fields ->
  exists e,
    json_dumps (PyDict (map (fun kv => (PyStr (fst kv), snd kv)) fields))
    = Raised e.
Proof.
  intros H. rewrite json_dumps_dict.
  enough (exists e,
            dict_chunks (map (fun kv => (PyStr (fst kv), snd kv)) fields)
            = Raised e) as [e ->] by (by exists e).
  induction H as [[k v] rest Hv|[k v] rest _ [e IH]];
    cbn [map dict_chunks json_key fst snd obind].
  - destruct (json_dumps v) as [s|e] eqn:Hs.
    + destruct Hv. by exists s.
    + by exists e.
  - destruct (json_dumps v) as [s|e0]; [|by exists e0].
    cbn [obind]. rewrite IH. by exists e.
Qed.

(** Conversely, when such a display has a JSON form, so has each value. *)
Lemma json_dumps_record_values (fields : list (pystr * pyval)) text :
  json_dumps (PyDict (map (fun kv => (PyStr (fst kv), snd kv)) fields))
  = Returned text ->
  Forall (fun kv => json_serializable (snd kv)) fields.
Proof.
  intros Hd. apply Forall_forall. intros kv Hin.
  destruct (json_dumps (snd kv)) as [s|e] eqn:Hs; [by exists s|].
  destruct (json_dumps_record_refused fields) as [e' He'].
  - apply Exists_exists. exists kv. split; [done|].
    intros [s' Hs']. congruence.
  - congruence.
Qed.

Section WithVendor.

Variable vendor : vendor_class -> call_args -> outcome pyval.

(** *** [evaluate_article] in a configured environment *)

(** Once the data is serialised and the environment read, the outcome of
    [evaluate_article] is that of the construction of the evaluator. *)
Lemma evaluate_article_after_construction
    data ctx w s deployment version subscription group project
    (o : outcome ArticleEvaluator) calls :
  json_dumps data = Returned s ->
  environ w !! py "AZURE_OPENAI_4_EVAL_DEPLOYMENT_NAME" = Some deployment ->
  environ w !! py "AZURE_OPENAI_API_VERSION" = Some version ->
  environ w !! py "AZURE_SUBSCRIPTION_ID" = Some subscription ->
  environ w !! py "AZURE_RESOURCE_GROUP" = Some group ->
  environ w !! py "AZURE_AI_PROJECT_NAME" = Some project ->
  (forall w',
     ArticleEvaluator__init__ vendor
       (model_configuration deployment version
          (environ w !! py "AZURE_OPENAI_NAME"))
       (project_scope_of subscription group project) w'
     = (o, emit_events calls w')) ->
  evaluate_article vendor data ctx w
  = match o with
    | Returned _ =>
        (Returned article_result,
         emit_events
           (map EnvRead read_order ++ calls
            ++ [ Printed [PyStr (py "results: "); PyStr article_result_json];
                 SpanEnded (run_evaluators_span ctx s) ])
           w)
    | Raised e =>
        (Raised e,
         emit_events
           (map EnvRead read_order ++ calls
            ++ [ SpanEnded
                   (mkSpan (py "run_evaluators") ctx
                      (<[py "inputs" := PyStr s]> ∅) (Some e)) ])
           w)
    end.
Proof.
  intros Hjson E1 E2 E3 E4 E5 Hinit.
  unfold model_configuration, project_scope_of in Hinit.
  unfold evaluate_article. destruct o as [evaluator|e].
  - erewrite start_as_current_span_run; cycle 1.
    { rewrite Hjson. run_block.
      step ltac:(rewrite Hinit, emit_events_of_evolve; reflexivity).
      rewrite json_dumps_article_result. run_block. reflexivity. }
    simpl raised; do 2 f_equal; try (rewrite <- !app_assoc; reflexivity).
  - erewrite start_as_current_span_run; cycle 1.
    { rewrite Hjson. run_block.
      stop ltac:(rewrite Hinit, emit_events_of_evolve; reflexivity).
      reflexivity. }
    simpl raised; do 2 f_equal; try (rewrite <- !app_assoc; reflexivity).
Qed.

(** *** [evaluate_article] with a variable unset *)

Ltac run_to_unset Hjson :=
  erewrite start_as_current_span_run; cycle 1;
  [ rewrite Hjson; run_block;
    stop ltac:(apply os_environ_getitem_None; eassumption); reflexivity
  | reflexivity ].

Ltac read_required w name H Hjson :=
  destruct (environ w !! name) as [?|] eqn:?;
  [ rewrite bool_decide_eq_false_2 in H by done
  | rewrite bool_decide_eq_true_2 in H by done; injection H as <-;
    run_to_unset Hjson ].

(** The reads stop at the first unset variable. *)
Lemma evaluate_article_reads_until data ctx w s name :
  json_dumps data = Returned s ->
  first_unset (environ w) = Some name ->
  evaluate_article vendor data ctx w
  = (Raised (KeyError name),
     emit_events
       (map EnvRead (through name read_order)
        ++ [ SpanEnded
               (mkSpan (py "run_evaluators") ctx
                  (<[py "inputs" := PyStr s]> ∅)
                  (Some (KeyError name))) ])
       w).
Proof.
  intros Hjson Hunset.
  unfold first_unset, required_env in Hunset. cbn [find] in Hunset.
  unfold evaluate_article.
  read_required w (py "AZURE_OPENAI_4_EVAL_DEPLOYMENT_NAME") Hunset Hjson.
  read_required w (py "AZURE_OPENAI_API_VERSION") Hunset Hjson.
  read_required w (py "AZURE_SUBSCRIPTION_ID") Hunset Hjson.
  read_required w (py "AZURE_RESOURCE_GROUP") Hunset Hjson.
  read_required w (py "AZURE_AI_PROJECT_NAME") Hunset Hjson.
  discriminate Hunset.
Qed.

(** *** [evaluate_article_in_background] *)

(** A record of three texts is serialised to the record of their encodings. *)
Lemma json_dumps_evaluation_input query context response :
  json_dumps (evaluation_input query context response)
  = Returned
      (record_json
         [ (py "query", encode_basestring_ascii query);
           (py "context", encode_basestring_ascii context);
           (py "response", encode_basestring_ascii response) ]).
Proof.
  apply (json_dumps_record
    [ (py "query", PyStr query, encode_basestring_ascii query);
      (py "context", PyStr context, encode_basestring_ascii context);
      (py "response", PyStr response, encode_basestring_ascii response) ]).
  repeat constructor.
Qed.

(** When an argument has no JSON form, the function raises before it calls
    [evaluate_article], and the world is as it was.  The exception is the
    one [json.dumps] raised on the first of the three texts it could not
    write. *)
Lemma evaluate_article_in_background_refused
    rc pc ac research products article w :
  ~ (json_serializable rc /\ json_serializable pc /\ json_serializable ac
     /\ json_serializable research /\ json_serializable products
     /\ json_serializable article) ->
  exists e,
    evaluate_article_in_background vendor rc pc ac research products article w
    = (Raised e, w)
    /\ (json_dumps (PyDict [ (PyStr (py "research_context"), rc);
                             (PyStr (py "product_context"), pc);
                             (PyStr (py "assignment_context"), ac) ])
        = Raised e
        \/ (json_serializable rc /\ json_serializable pc
            /\ json_serializable ac
            /\ json_dumps (PyDict [ (PyStr (py "research"), research);
                                    (PyStr (py "products"), products) ])
               = Raised e)
        \/ (json_serializable rc /\ json_serializable pc
            /\ json_serializable ac /\ json_serializable research
            /\ json_serializable products
            /\ json_dumps article = Raised e)).
Proof.
  intros Hnot. unfold evaluate_article_in_background.
  destruct (json_dumps (PyDict [
      (PyStr (py "research_context"), rc);
      (PyStr (py "product_context"), pc);
      (PyStr (py "assignment_context"), ac) ])) as [query|e] eqn:Hq.
  2: { exists e. split; [|by left].
       step ltac:(reflexivity). reflexivity. }
  pose proof (json_dumps_record_values
                [ (py "research_context", rc); (py "product_context", pc);
                  (py "assignment_context", ac) ] _ Hq) as H3.
  apply Forall_cons in H3 as [Hrc H3]. apply Forall_cons in H3 as [Hpc H3].
  apply Forall_cons in H3 as [Hac _]. cbn [snd] in Hrc, Hpc, Hac.
  destruct (json_dumps (PyDict [
      (PyStr (py "research"), research);
      (PyStr (py "products"), products) ])) as [context|e] eqn:Hc.
  2: { exists e. split; [|by right; left].
       step ltac:(reflexivity). step ltac:(apply lift_run). reflexivity. }
  pose proof (json_dumps_record_values
                [ (py "research", research); (py "products", products) ]
                _ Hc) as H2.
  apply Forall_cons in H2 as [Hre H2]. apply Forall_cons in H2 as [Hpr _].
  cbn [snd] in Hre, Hpr.
  destruct (json_dumps article) as [response|e] eqn:Hr.
  2: { exists e. split; [|by right; right].
       step ltac:(reflexivity). step ltac:(apply lift_run).
       step ltac:(apply lift_run). reflexivity. }
  destruct Hnot. repeat split; try done. by exists response.
Qed.

End WithVendor.

(** The names of a list up to a member end with that member. *)
Lemma through_last name names :
  name ∈ names -> last (through name names) = Some name.
Proof.
  induction 1 as [name rest|name first rest _ IH]; cbn [through].
  - by rewrite decide_True.
  - destruct (decide (first = name)) as [->|]; [done|].
    destruct (through name rest) eqn:Ht; [discriminate|]. exact IH.
Qed.

End Traces.
Export Traces.

(** ** The claims *)

(** C1, as stated, fails: with the required variables unset the call raises
    [KeyError] instead of returning the literal, and on a value that
    [json.dumps] refuses it raises [TypeError] even in a configured
    environment. *)
Lemma evaluate_article_can_raise :
  fst (evaluate_article plain_vendor article_data root_context bare_world)
  = Raised (KeyError (py "AZURE_OPENAI_4_EVAL_DEPLOYMENT_NAME"))
  /\ fst (evaluate_article plain_vendor a_set root_context lab_world)
     = Raised TypeError.
Proof. split; vm_compute; reflexivity. Qed.

(** C1 (amended): [evaluate_image] returns the image literal on every
    input; [evaluate_article] returns nothing but the article literal,
    whatever its arguments, and it does return it when the data is JSON
    serialisable, the required variables are set and the vendor
    constructors return. *)
Theorem public_functions_return_literals :
  (forall messages w, fst (evaluate_image messages w) = Returned image_result)
  /\ (forall vendor data ctx w r,
        fst (evaluate_article vendor data ctx w) = Returned r ->
        r = article_result)
  /\ (forall vendor data ctx w,
        vendor_constructs vendor ->
        json_serializable data ->
        env_configured (environ w) ->
        fst (evaluate_article vendor data ctx w) = Returned article_result).
Proof.
  split; [reflexivity|]. split.
  - intros vendor data ctx w r H.
    exact (results_in_evaluate_article vendor data ctx w r H).
  - intros vendor data ctx w Hv [s Hs] He.
    destruct (evaluate_article_returns vendor Hv data ctx w s Hs He)
      as (reads & calls & _ & _ & H).
    by rewrite H.
Qed.

Lemma public_functions_return_literals_witness :
  fst (evaluate_article plain_vendor article_data root_context lab_world)
  = Returned article_result.
Proof.
  apply (proj2 (proj2 public_functions_return_literals)).
  - intros cls args. eexists. reflexivity.
  - eexists. vm_compute. reflexivity.
  - repeat constructor; eexists; vm_compute; reflexivity.
Defined.




(** C3, as stated, fails: the friendliness evaluator returns a literal of
    its own, which is neither of the two result literals, and
    [evaluate_image] ends no span: all it does is print. *)
Lemma contract_is_not_uniform :
  FriendlinessEvaluator__call__ FriendlinessEvaluator__init__ PyNone
    <> article_result
  /\ FriendlinessEvaluator__call__ FriendlinessEvaluator__init__ PyNone
    <> image_result
  /\ existsb is_span (log (snd (evaluate_image PyNone bare_world))) = false
  /\ log (snd (evaluate_image PyNone bare_world))
     = [ Printed [PyStr (py "Image evaluation (lab mode):"); image_result] ].
Proof.
  split; [vm_compute; discriminate|].
  split; [vm_compute; discriminate|].
  split; vm_compute; reflexivity.
Qed.

(** C3 (amended): the call operators of the article and image evaluators
    and [evaluate_image] return their literal whatever the input, and
    [evaluate_article] returns nothing else than the article literal; the
    friendliness evaluator returns the score literal; only
    [evaluate_article] ends a span, named "run_evaluators", in the context
    it was given; [evaluate_image] prints and the call operators have no
    effect at all. *)
Theorem operation_contracts :
  (forall self data_path kwargs,
     ArticleEvaluator__call__ self data_path kwargs = article_result)
  /\ (forall self messages kwargs,
        ImageEvaluator__call__ self messages kwargs = image_result)
  /\ (forall self response,
        FriendlinessEvaluator__call__ self response
        = PyDict [ (PyStr (py "score"), PyInt 5) ])
  /\ (forall messages w,
        evaluate_image messages w
        = (Returned image_result,
           emit_events
             [ Printed [PyStr (py "Image evaluation (lab mode):");
                        image_result] ] w))
  /\ (forall vendor data ctx w,
        exists o evs sp,
          evaluate_article vendor data ctx w
          = (o, emit_events (evs ++ [SpanEnded sp]) w)
          /\ span_name sp = py "run_evaluators"
          /\ span_context sp = ctx
          /\ (forall r, o = Returned r -> r = article_result)).
Proof.
  repeat split.
  intros vendor data ctx w.
  destruct (evaluate_article_span vendor data ctx w)
    as (o & evs & sp & H & Hn & Hc & _).
  exists o, evs, sp. repeat split; try done.
  intros r ->. apply (results_in_evaluate_article vendor data ctx w r).
  by rewrite H.
Qed.

Lemma operation_contracts_witness :
  exists o evs sp,
    evaluate_article plain_vendor article_data root_context lab_world
    = (o, emit_events (evs ++ [SpanEnded sp]) lab_world)
    /\ span_name sp = py "run_evaluators"
    /\ span_context sp = root_context
    /\ (forall r, o = Returned r -> r = article_result).
Proof.
  apply (proj2 (proj2 (proj2 (proj2 operation_contracts)))).
Defined.

(** C4, as stated, fails: the data is serialised before the environment is
    read, so with every variable unset a value that [json.dumps] refuses
    makes the call raise [TypeError], not [KeyError]. *)
Lemma unset_variable_without_KeyError :
  environ bare_world !! py "AZURE_SUBSCRIPTION_ID" = None
  /\ fst (evaluate_article plain_vendor a_set root_context bare_world)
     = Raised TypeError.
Proof. split; vm_compute; reflexivity. Qed.

(** C4 (amended): for JSON-serialisable data, when one of the five required
    variables is unset the call raises [KeyError] for the first unset one,
    uncaught: the span is ended with that exception after environment reads
    only, no evaluator is constructed and no result is returned.  Reading
    AZURE_OPENAI_NAME never raises, and the call returns without it. *)
Theorem unset_variable_raises_KeyError vendor data ctx w name :
  json_serializable data ->
  name ∈ required_env ->
  environ w !! name = None ->
  (exists first reads s,
     first_unset (environ w) = Some first
     /\ first ∈ required_env
     /\ environ w !! first = None
     /\ json_dumps data = Returned s
     /\ forallb is_env_read reads = true
     /\ evaluate_article vendor data ctx w
        = (Raised (KeyError first),
           emit_events
             (reads
              ++ [ SpanEnded
                     (mkSpan (py "run_evaluators") ctx
                        (<[py "inputs" := PyStr s]> ∅)
                        (Some (KeyError first))) ])
             w))
  /\ (py "AZURE_OPENAI_NAME" ∉ required_env)
  /\ (forall w', fst (os_getenv (py "AZURE_OPENAI_NAME") w')
                 = Returned (environ w' !! py "AZURE_OPENAI_NAME"))
  /\ (forall w', vendor_constructs vendor ->
                 env_configured (environ w') ->
                 environ w' !! py "AZURE_OPENAI_NAME" = None ->
                 fst (evaluate_article vendor data ctx w')
                 = Returned article_result).
Proof.
  intros [s Hs] Hin Hnone. repeat split.
  - destruct (unset_first_unset _ _ Hin Hnone) as [first Hfirst].
    destruct (first_unset_Some _ _ Hfirst) as [Hfin Hfnone].
    destruct (evaluate_article_unset vendor data ctx w s first Hs Hfirst)
      as (reads & Hreads & H).
    by exists first, reads, s.
  - apply (bool_decide_unpack _). vm_compute. exact I.
  - intros w' Hv He _.
    destruct (evaluate_article_returns vendor Hv data ctx w' s Hs He)
      as (reads & calls & _ & _ & H).
    by rewrite H.
Qed.

Lemma unset_variable_raises_KeyError_witness :
  (exists first reads s,
     first_unset (environ bare_world) = Some first
     /\ first ∈ required_env
     /\ environ bare_world !! first = None
     /\ json_dumps article_data = Returned s
     /\ forallb is_env_read reads = true
     /\ evaluate_article plain_vendor article_data root_context bare_world
        = (Raised (KeyError first),
           emit_events
             (reads
              ++ [ SpanEnded
                     (mkSpan (py "run_evaluators") root_context
                        (<[py "inputs" := PyStr s]> ∅)
                        (Some (KeyError first))) ])
             bare_world))
  /\ (py "AZURE_OPENAI_NAME" ∉ required_env)
  /\ (forall w', fst (os_getenv (py "AZURE_OPENAI_NAME") w')
                 = Returned (environ w' !! py "AZURE_OPENAI_NAME"))
  /\ (forall w', vendor_constructs plain_vendor ->
                 env_configured (environ w') ->
                 environ w' !! py "AZURE_OPENAI_NAME" = None ->
                 fst (evaluate_article plain_vendor article_data root_context w')
                 = Returned article_result).
Proof.
  apply (unset_variable_raises_KeyError plain_vendor article_data root_context
           bare_world (py "AZURE_RESOURCE_GROUP")).
  - eexists. vm_compute. reflexivity.
  - apply (bool_decide_unpack _). vm_compute. exact I.
  - vm_compute. reflexivity.
Defined.

(** C5, as stated, fails: with the required variables unset the span is
    ended carrying the "inputs" attribute and the [KeyError], and no
    "output" attribute; on a value that [json.dumps] refuses the span
    carries neither attribute. *)
Lemma span_without_output :
  (exists sp,
     log (snd (evaluate_article plain_vendor article_data root_context
                 bare_world))
     = [ EnvRead (py "AZURE_OPENAI_4_EVAL_DEPLOYMENT_NAME"); SpanEnded sp ]
     /\ is_Some (span_attributes sp !! py "inputs")
     /\ span_attributes sp !! py "output" = None)
  /\ (exists sp,
        log (snd (evaluate_article plain_vendor a_set root_context lab_world))
        = [ SpanEnded sp ]
        /\ span_attributes sp !! py "inputs" = None
        /\ span_attributes sp !! py "output" = None).
Proof.
  split; eexists; (split; [vm_compute; reflexivity|]);
    (split; [vm_compute; eauto|vm_compute; reflexivity]).
Qed.

(** C5 (amended): for JSON-serialisable data, every call of
    [evaluate_article] ends a span named "run_evaluators", started in the
    trace context it was given, whose "inputs" attribute is the JSON text
    of the data; when moreover the required variables are set and the
    vendor constructors return, that span is the only one, and its
    attributes are exactly "inputs" and "output", the latter the JSON text
    of the dictionary returned. *)
Theorem run_evaluators_span_attributes vendor data ctx w s :
  json_dumps data = Returned s ->
  (exists o evs sp,
     evaluate_article vendor data ctx w
     = (o, emit_events (evs ++ [SpanEnded sp]) w)
     /\ span_name sp = py "run_evaluators"
     /\ span_context sp = ctx
     /\ span_attributes sp !! py "inputs" = Some (PyStr s))
  /\ (vendor_constructs vendor ->
      env_configured (environ w) ->
      exists r evs output,
        evaluate_article vendor data ctx w
        = (Returned r,
           emit_events
             (evs
              ++ [ SpanEnded
                     (mkSpan (py "run_evaluators") ctx
                        (<[py "output" := PyStr output]>
                           (<[py "inputs" := PyStr s]> ∅))
                        None) ])
             w)
        /\ json_dumps r = Returned output
        /\ existsb is_span evs = false).
Proof.
  intros Hs. split.
  - destruct (evaluate_article_span vendor data ctx w)
      as (o & evs & sp & H & Hn & Hc & _ & Ha).
    exists o, evs, sp. repeat split; try done. by apply Ha.
  - intros Hv He.
    destruct (evaluate_article_returns vendor Hv data ctx w s Hs He)
      as (reads & calls & Hreads & Hcalls & H).
    exists article_result,
      (reads ++ calls
       ++ [Printed [PyStr (py "results: "); PyStr article_result_json]]),
      article_result_json.
    split; [|split; [apply json_dumps_article_result|]].
    + rewrite H. unfold run_evaluators_span. do 2 f_equal.
      by rewrite <- !app_assoc.
    + rewrite !existsb_app, (env_reads_no_span _ Hreads),
        (vendor_calls_no_span _ Hcalls). reflexivity.
Qed.

Lemma run_evaluators_span_attributes_witness :
  exists r evs output,
    evaluate_article plain_vendor article_data root_context lab_world
    = (Returned r,
       emit_events
         (evs
          ++ [ SpanEnded
                 (mkSpan (py "run_evaluators") root_context
                    (<[py "output" := PyStr output]>
                       (<[py "inputs"
                          := PyStr (record_json
                               [ (py "query", encode_basestring_ascii (py "q"));
                                 (py "context", encode_basestring_ascii (py "c"));
                                 (py "response", encode_basestring_ascii (py "r")) ])]>
                          ∅))
                    None) ])
         lab_world)
    /\ json_dumps r = Returned output
    /\ existsb is_span evs = false.
Proof.
  apply (run_evaluators_span_attributes plain_vendor article_data root_context
           lab_world).
  - vm_compute. reflexivity.
  - intros cls args. eexists. reflexivity.
  - repeat constructor; eexists; vm_compute; reflexivity.
Defined.

(** C6: the outcome of a call depends on its arguments and the environment
    only (not on the spans and the log that earlier calls left), and a call
    changes nothing of the world but the log, to which it appends: the
    environment, the caller's span and the stack of active spans are as
    before.  So two calls with equal arguments under equal environments,
    also one after the other, have equal outcomes. *)
Theorem evaluation_is_stateless vendor data ctx messages w1 w2 :
  environ w1 = environ w2 ->
  fst (evaluate_article vendor data ctx w1)
  = fst (evaluate_article vendor data ctx w2)
  /\ fst (evaluate_image messages w1) = fst (evaluate_image messages w2)
  /\ (exists evs,
        snd (evaluate_article vendor data ctx w1) = emit_events evs w1)
  /\ (exists evs, snd (evaluate_image messages w1) = emit_events evs w1)
  /\ fst (evaluate_article vendor data ctx
            (snd (evaluate_article vendor data ctx w1)))
     = fst (evaluate_article vendor data ctx w1)
  /\ fst (evaluate_image messages (snd (evaluate_image messages w1)))
     = fst (evaluate_image messages w1).
Proof.
  intros Hw.
  split; [apply (env_sim_evaluate_article vendor data ctx ctx w1 w2 Hw)|].
  split; [reflexivity|].
  split; [apply logs_only_evaluate_article|].
  split; [apply logs_only_evaluate_image|].
  split; [|reflexivity].
  apply (env_sim_evaluate_article vendor data ctx ctx).
  destruct (logs_only_evaluate_article vendor data ctx w1) as [evs ->].
  reflexivity.
Qed.

Lemma evaluation_is_stateless_witness :
  fst (evaluate_article plain_vendor article_data root_context lab_world)
  = fst (evaluate_article plain_vendor article_data root_context busy_world)
  /\ fst (evaluate_image PyNone lab_world) = fst (evaluate_image PyNone busy_world)
  /\ (exists evs,
        snd (evaluate_article plain_vendor article_data root_context lab_world)
        = emit_events evs lab_world)
  /\ (exists evs, snd (evaluate_image PyNone lab_world) = emit_events evs lab_world)
  /\ fst (evaluate_article plain_vendor article_data root_context
            (snd (evaluate_article plain_vendor article_data root_context
                    lab_world)))
     = fst (evaluate_article plain_vendor article_data root_context lab_world)
  /\ fst (evaluate_image PyNone (snd (evaluate_image PyNone lab_world)))
     = fst (evaluate_image PyNone lab_world).
Proof.
  apply (evaluation_is_stateless plain_vendor article_data root_context PyNone
           lab_world busy_world).
  reflexivity.
Defined.

(** C7: every record returned by [evaluate_article], [evaluate_image] and
    the call operators of the article and image evaluators has a "metrics"
    entry mapping string names to numbers and a "rows" entry that is a
    sequence of such mappings; the names are the fixed ones of the
    literals. *)
Theorem result_records_are_well_formed :
  (forall vendor data ctx w r,
     fst (evaluate_article vendor data ctx w) = Returned r ->
     is_result_record r = true
     /\ str_keys <$> getitem r (py "metrics")
        = Some (quality_names ++ defect_rate_names))
  /\ (forall messages w r,
        fst (evaluate_image messages w) = Returned r ->
        is_result_record r = true
        /\ str_keys <$> getitem r (py "metrics") = Some image_score_names)
  /\ (forall self data_path kwargs,
        is_result_record (ArticleEvaluator__call__ self data_path kwargs) = true
        /\ str_keys <$> getitem (ArticleEvaluator__call__ self data_path kwargs)
                          (py "metrics")
           = Some (quality_names ++ defect_rate_names))
  /\ (forall self messages kwargs,
        is_result_record (ImageEvaluator__call__ self messages kwargs) = true
        /\ str_keys <$> getitem (ImageEvaluator__call__ self messages kwargs)
                          (py "metrics")
           = Some image_score_names).
Proof.
  split; [|split; [|split]].
  - intros vendor data ctx w r H.
    rewrite (results_in_evaluate_article vendor data ctx w r H).
    split; vm_compute; reflexivity.
  - intros messages w r [= <-]. split; vm_compute; reflexivity.
  - intros. split; vm_compute; reflexivity.
  - intros. split; vm_compute; reflexivity.
Qed.

Lemma result_records_are_well_formed_witness :
  is_result_record article_result = true
  /\ str_keys <$> getitem article_result (py "metrics")
     = Some (quality_names ++ defect_rate_names).
Proof.
  apply (proj1 result_records_are_well_formed
           plain_vendor article_data root_context lab_world).
  vm_compute. reflexivity.
Defined.

(** C8: on every input and in every world, also with every environment
    variable unset, [evaluate_image] returns its literal; all it does is
    print: it reads no environment variable, ends no span and constructs
    no vendor object. *)
Theorem evaluate_image_only_prints messages w :
  exists evs,
    evaluate_image messages w = (Returned image_result, emit_events evs w)
    /\ evs = [ Printed [PyStr (py "Image evaluation (lab mode):");
                        image_result] ]
    /\ forallb is_print evs = true
    /\ existsb is_env_read evs = false
    /\ existsb is_span evs = false
    /\ existsb is_vendor_call evs = false
    /\ fst (evaluate_image messages bare_world) = Returned image_result.
Proof. eexists. split; [reflexivity|]. repeat split. Qed.

Lemma str_record_serializable k1 a k2 b k3 c :
  json_serializable
    (PyDict [ (PyStr k1, PyStr a); (PyStr k2, PyStr b); (PyStr k3, PyStr c) ]).
Proof.
  eexists.
  apply (json_dumps_record
    [ (k1, PyStr a, encode_basestring_ascii a);
      (k2, PyStr b, encode_basestring_ascii b);
      (k3, PyStr c, encode_basestring_ascii c) ]).
  repeat constructor.
Qed.

(** C9, as stated, fails: when an argument has no JSON form the function
    raises [TypeError] while it builds the record, [evaluate_article] is
    never called and the world is left as it was; and when
    [evaluate_article] raises, its exception escapes instead of [None]
    being returned. *)
Lemma background_can_raise :
  evaluate_article_in_background plain_vendor
    a_set PyNone PyNone PyNone PyNone PyNone lab_world
  = (Raised TypeError, lab_world)
  /\ fst (evaluate_article_in_background plain_vendor
            PyNone PyNone PyNone PyNone PyNone PyNone bare_world)
     = Raised (KeyError (py "AZURE_OPENAI_4_EVAL_DEPLOYMENT_NAME")).
Proof. split; vm_compute; reflexivity. Qed.

(** C9 (amended): for six JSON-serialisable arguments the function builds
    the record whose "query", "context" and "response" are the JSON texts
    of the three contexts, of research and products, and of the article,
    and runs [evaluate_article] on it under the context of the current
    span; an exception of [evaluate_article] escapes, otherwise its result
    is dropped and [None] is returned, which is what happens when the
    required variables are set and the vendor constructors return. *)
Theorem background_evaluation
    vendor rc pc ac research products article w :
  json_serializable rc -> json_serializable pc -> json_serializable ac ->
  json_serializable research -> json_serializable products ->
  json_serializable article ->
  exists query context response,
    json_dumps (PyDict [
        (PyStr (py "research_context"), rc);
        (PyStr (py "product_context"), pc);
        (PyStr (py "assignment_context"), ac) ]) = Returned query
    /\ json_dumps (PyDict [
          (PyStr (py "research"), research);
          (PyStr (py "products"), products) ]) = Returned context
    /\ json_dumps article = Returned response
    /\ evaluate_article_in_background vendor
         rc pc ac research products article w
       = (let '(o, w') :=
            evaluate_article vendor
              (PyDict [
                 (PyStr (py "query"), PyStr query);
                 (PyStr (py "context"), PyStr context);
                 (PyStr (py "response"), PyStr response) ])
              (set_span_in_context (current_span w)) w in
          (obind o (fun _ => Returned PyNone), w'))
    /\ (vendor_constructs vendor ->
        env_configured (environ w) ->
        fst (evaluate_article_in_background vendor
               rc pc ac research products article w)
        = Returned PyNone).
Proof.
  intros [s1 H1] [s2 H2] [s3 H3] [s4 H4] [s5 H5] [s6 H6].
  pose proof (json_dumps_record
    [ (py "research_context", rc, s1); (py "product_context", pc, s2);
      (py "assignment_context", ac, s3) ]) as Hq.
  pose proof (json_dumps_record
    [ (py "research", research, s4); (py "products", products, s5) ]) as Hc.
  cbn [map] in Hq, Hc.
  specialize (Hq ltac:(repeat constructor; assumption)).
  specialize (Hc ltac:(repeat constructor; assumption)).
  eexists _, _, s6. split; [exact Hq|]. split; [exact Hc|].
  split; [exact H6|].
  pose proof (evaluate_article_in_background_run vendor
                rc pc ac research products article _ _ _ w Hq Hc H6) as Hrun.
  split; [exact Hrun|].
  intros Hv He. rewrite Hrun.
  destruct (str_record_serializable
              (py "query") (record_json
                [ (py "research_context", s1); (py "product_context", s2);
                  (py "assignment_context", s3) ])
              (py "context") (record_json
                [ (py "research", s4); (py "products", s5) ])
              (py "response") s6) as [s Hs].
  destruct (evaluate_article_returns vendor Hv _
              (set_span_in_context (current_span w)) w s Hs He)
    as (reads & calls & _ & _ & H).
  by rewrite H.
Qed.

Lemma background_evaluation_witness :
  exists query context response,
    json_dumps (PyDict [
        (PyStr (py "research_context"), PyStr (py "notes"));
        (PyStr (py "product_context"), PyStr (py "tents"));
        (PyStr (py "assignment_context"), PyStr (py "write")) ])
    = Returned query
    /\ json_dumps (PyDict [
          (PyStr (py "research"), PyList [PyInt 1]);
          (PyStr (py "products"), PyList []) ]) = Returned context
    /\ json_dumps (PyStr (py "article")) = Returned response
    /\ evaluate_article_in_background plain_vendor
         (PyStr (py "notes")) (PyStr (py "tents")) (PyStr (py "write"))
         (PyList [PyInt 1]) (PyList []) (PyStr (py "article")) busy_world
       = (let '(o, w') :=
            evaluate_article plain_vendor
              (PyDict [
                 (PyStr (py "query"), PyStr query);
                 (PyStr (py "context"), PyStr context);
                 (PyStr (py "response"), PyStr response) ])
              (set_span_in_context (current_span busy_world)) busy_world in
          (obind o (fun _ => Returned PyNone), w'))
    /\ (vendor_constructs plain_vendor ->
        env_configured (environ busy_world) ->
        fst (evaluate_article_in_background plain_vendor
               (PyStr (py "notes")) (PyStr (py "tents")) (PyStr (py "write"))
               (PyList [PyInt 1]) (PyList []) (PyStr (py "article"))
               busy_world)
        = Returned PyNone).
Proof.
  apply (background_evaluation plain_vendor);
    eexists; vm_compute; reflexivity.
Defined.

Lemma quality_rows_only_article_result : quality_rows_only article_result.
Proof.
  exists article_metrics, article_row.
  split; [vm_compute; reflexivity|].
  split; [vm_compute; reflexivity|].
  split; [reflexivity|].
  repeat constructor; apply (bool_decide_unpack _); vm_compute; exact I.
Qed.

(** C10: in every result of [evaluate_article] and of the call operator of
    the article evaluator, "rows" holds exactly one row, whose keys are the
    four quality metrics; each of the four defect rates is a key of
    "metrics" and not of the row. *)
Theorem article_rows_hold_quality_metrics_only :
  (forall vendor data ctx w r,
     fst (evaluate_article vendor data ctx w) = Returned r ->
     quality_rows_only r)
  /\ (forall self data_path kwargs,
        quality_rows_only (ArticleEvaluator__call__ self data_path kwargs)).
Proof.
  split.
  - intros vendor data ctx w r H.
    rewrite (results_in_evaluate_article vendor data ctx w r H).
    apply quality_rows_only_article_result.
  - intros. apply quality_rows_only_article_result.
Qed.

Lemma article_rows_hold_quality_metrics_only_witness :
  quality_rows_only article_result.
Proof.
  apply (proj1 article_rows_hold_quality_metrics_only
           plain_vendor article_data root_context lab_world).
  vm_compute. reflexivity.
Defined.

(** An exception of a vendor constructor is not caught either: it ends the
    span and escapes [evaluate_article]. *)
Example vendor_exception_escapes :
  fst (evaluate_article strict_vendor article_data root_context lab_world)
  = Raised (PyException (py "EvaluationException")).
Proof. vm_compute. reflexivity. Qed.

(** ** Further properties *)

(** X1: when [json.dumps] refuses the data, [evaluate_article] raises that
    exception at once: its span is ended with the exception and without
    attributes, no environment variable is read and no evaluator is
    constructed. *)
Theorem rejected_data_raises_at_once vendor data ctx w e :
  json_dumps data = Raised e ->
  evaluate_article vendor data ctx w
  = (Raised e,
     emit_events
       [ SpanEnded (mkSpan (py "run_evaluators") ctx ∅ (Some e)) ] w).
Proof. apply evaluate_article_rejects. Qed.

Lemma rejected_data_raises_at_once_witness :
  evaluate_article plain_vendor a_set root_context lab_world
  = (Raised TypeError,
     emit_events
       [ SpanEnded (mkSpan (py "run_evaluators") root_context ∅
                      (Some TypeError)) ]
       lab_world).
Proof.
  apply rejected_data_raises_at_once. vm_compute. reflexivity.
Defined.

(** X3: however [evaluate_article] ends, the last thing it does is end the
    span "run_evaluators", and the status of that span is the exception the
    call raises, if any: the exception is recorded and raised again, never
    swallowed. *)
Theorem exception_is_recorded_and_raised vendor data ctx w :
  exists o evs sp,
    evaluate_article vendor data ctx w
    = (o, emit_events (evs ++ [SpanEnded sp]) w)
    /\ span_name sp = py "run_evaluators"
    /\ span_status sp = raised o.
Proof.
  destruct (evaluate_article_span vendor data ctx w)
    as (o & evs & sp & H & Hn & _ & Hs & _).
  by exists o, evs, sp.
Qed.

(** X4: when the nine vendor constructors it calls return, the
    construction of the article evaluator returns an instance that keeps
    the project scope and nine evaluators under their names, the last one
    the module's own friendliness evaluator; it makes twelve constructor
    calls and nothing else: the four quality evaluators get the model
    configuration, and each of the four safety evaluators gets the project
    scope and a credential constructed just for it. *)
Theorem article_evaluator_construction vendor cfg scope w
    relevance fluency coherence groundedness credential
    violence hate_unfairness self_harm sexual :
  vendor RelevanceEvaluator (mkArgs [cfg] []) = Returned relevance ->
  vendor FluencyEvaluator (mkArgs [cfg] []) = Returned fluency ->
  vendor CoherenceEvaluator (mkArgs [cfg] []) = Returned coherence ->
  vendor GroundednessEvaluator (mkArgs [cfg] []) = Returned groundedness ->
  vendor DefaultAzureCredential (mkArgs [] []) = Returned credential ->
  vendor ViolenceEvaluator
    (mkArgs [] [ (py "azure_ai_project", scope); (py "credential", credential) ])
  = Returned violence ->
  vendor HateUnfairnessEvaluator
    (mkArgs [] [ (py "azure_ai_project", scope); (py "credential", credential) ])
  = Returned hate_unfairness ->
  vendor SelfHarmEvaluator
    (mkArgs [] [ (py "azure_ai_project", scope); (py "credential", credential) ])
  = Returned self_harm ->
  vendor SexualEvaluator
    (mkArgs [] [ (py "azure_ai_project", scope); (py "credential", credential) ])
  = Returned sexual ->
  exists evaluator,
    ArticleEvaluator__init__ vendor cfg scope w
    = (Returned evaluator,
       emit_events (article_construction cfg scope credential) w)
    /\ map fst (article_evaluators evaluator) = article_evaluator_names
    /\ map snd (article_evaluators evaluator)
       = [ relevance; fluency; coherence; groundedness; violence;
           hate_unfairness; self_harm; sexual; FriendlinessEvaluator__init__ ]
    /\ article_project_scope evaluator = scope
    /\ length (article_construction cfg scope credential) = 12
    /\ length (filter (fun e => is_credential_call e = true)
                 (article_construction cfg scope credential)) = 4.
Proof.
  intros H1 H2 H3 H4 Hc H5 H6 H7 H8. eexists. split.
  - exact (ArticleEvaluator__init__run vendor cfg scope w _ _ _ _ _ _ _ _ _
             H1 H2 H3 H4 Hc H5 H6 H7 H8).
  - repeat split.
Qed.

Lemma article_evaluator_construction_witness :
  exists evaluator,
    ArticleEvaluator__init__ plain_vendor PyNone PyNone lab_world
    = (Returned evaluator,
       emit_events
         (article_construction PyNone PyNone (PyObject (py "object")))
         lab_world)
    /\ map fst (article_evaluators evaluator) = article_evaluator_names
    /\ map snd (article_evaluators evaluator)
       = [ PyObject (py "object"); PyObject (py "object");
           PyObject (py "object"); PyObject (py "object");
           PyObject (py "object"); PyObject (py "object");
           PyObject (py "object"); PyObject (py "object");
           FriendlinessEvaluator__init__ ]
    /\ article_project_scope evaluator = PyNone
    /\ length (article_construction PyNone PyNone (PyObject (py "object")))
       = 12
    /\ length (filter (fun e => is_credential_call e = true)
                 (article_construction PyNone PyNone
                    (PyObject (py "object")))) = 4.
Proof.
  apply (article_evaluator_construction plain_vendor PyNone PyNone lab_world);
    reflexivity.
Defined.

(** X5: when the construction of the article evaluator raises, the
    exception is the one raised by the last vendor constructor it called;
    the constructors called before returned, none is called after, and the
    construction did nothing but these calls. *)
Theorem article_evaluator_construction_failure vendor cfg scope w e w' :
  ArticleEvaluator__init__ vendor cfg scope w = (Raised e, w') ->
  exists before cls args,
    w' = emit_events (before ++ [VendorCall cls args]) w
    /\ Forall (call_returned vendor) before
    /\ vendor cls args = Raised e.
Proof.
  intros H.
  destruct (constructs_run vendor _ _ _ _
              (constructs_ArticleEvaluator__init__ vendor cfg scope) H)
    as (calls & -> & before & cls & args & -> & Hb & He).
  by exists before, cls, args.
Qed.

Lemma article_evaluator_construction_failure_witness :
  exists before cls args,
    snd (ArticleEvaluator__init__ denying_vendor PyNone PyNone lab_world)
    = emit_events (before ++ [VendorCall cls args]) lab_world
    /\ Forall (call_returned denying_vendor) before
    /\ denying_vendor cls args
       = Raised (PyException (py "ClientAuthenticationError")).
Proof.
  apply (article_evaluator_construction_failure denying_vendor PyNone PyNone
           lab_world).
  vm_compute. reflexivity.
Defined.

(** X6: when the six vendor constructors it calls return, the construction
    of the image evaluator returns an instance that keeps the project scope
    and five evaluators under their names; it makes ten constructor calls
    and nothing else, a credential being constructed before each
    evaluator. *)
Theorem image_evaluator_construction vendor scope w
    credential violence self_harm hate_unfairness sexual protected_material :
  vendor DefaultAzureCredential (mkArgs [] []) = Returned credential ->
  vendor ViolenceMultimodalEvaluator
    (mkArgs [] [ (py "credential", credential); (py "azure_ai_project", scope) ])
  = Returned violence ->
  vendor SelfHarmMultimodalEvaluator
    (mkArgs [] [ (py "credential", credential); (py "azure_ai_project", scope) ])
  = Returned self_harm ->
  vendor HateUnfairnessMultimodalEvaluator
    (mkArgs [] [ (py "credential", credential); (py "azure_ai_project", scope) ])
  = Returned hate_unfairness ->
  vendor SexualMultimodalEvaluator
    (mkArgs [] [ (py "credential", credential); (py "azure_ai_project", scope) ])
  = Returned sexual ->
  vendor ProtectedMaterialMultimodalEvaluator
    (mkArgs [] [ (py "credential", credential); (py "azure_ai_project", scope) ])
  = Returned protected_material ->
  exists evaluator,
    ImageEvaluator__init__ vendor scope w
    = (Returned evaluator, emit_events (image_construction scope credential) w)
    /\ map fst (image_evaluators evaluator) = image_evaluator_names
    /\ map snd (image_evaluators evaluator)
       = [ violence; self_harm; hate_unfairness; sexual; protected_material ]
    /\ image_project_scope evaluator = scope
    /\ ImageEvaluator__call__ evaluator PyNone [] = image_result
    /\ length (image_construction scope credential) = 10
    /\ length (filter (fun e => is_credential_call e = true)
                 (image_construction scope credential)) = 5.
Proof.
  intros Hc H1 H2 H3 H4 H5. eexists. split.
  - exact (ImageEvaluator__init__run vendor scope w _ _ _ _ _ _
             Hc H1 H2 H3 H4 H5).
  - repeat split.
Qed.

Lemma image_evaluator_construction_witness :
  exists evaluator,
    ImageEvaluator__init__ plain_vendor PyNone bare_world
    = (Returned evaluator,
       emit_events (image_construction PyNone (PyObject (py "object")))
         bare_world)
    /\ map fst (image_evaluators evaluator) = image_evaluator_names
    /\ map snd (image_evaluators evaluator)
       = [ PyObject (py "object"); PyObject (py "object");
           PyObject (py "object"); PyObject (py "object");
           PyObject (py "object") ]
    /\ image_project_scope evaluator = PyNone
    /\ ImageEvaluator__call__ evaluator PyNone [] = image_result
    /\ length (image_construction PyNone (PyObject (py "object"))) = 10
    /\ length (filter (fun e => is_credential_call e = true)
                 (image_construction PyNone (PyObject (py "object")))) = 5.
Proof.
  apply (image_evaluator_construction plain_vendor PyNone bare_world);
    reflexivity.
Defined.

(** X7: when the construction of the image evaluator raises, the exception
    is the one raised by the last vendor constructor it called; the
    constructors called before returned and none is called after. *)
Theorem image_evaluator_construction_failure vendor scope w e w' :
  ImageEvaluator__init__ vendor scope w = (Raised e, w') ->
  exists before cls args,
    w' = emit_events (before ++ [VendorCall cls args]) w
    /\ Forall (call_returned vendor) before
    /\ vendor cls args = Raised e.
Proof.
  intros H.
  destruct (constructs_run vendor _ _ _ _
              (constructs_ImageEvaluator__init__ vendor scope) H)
    as (calls & -> & before & cls & args & -> & Hb & He).
  by exists before, cls, args.
Qed.

Lemma image_evaluator_construction_failure_witness :
  exists before cls args,
    snd (ImageEvaluator__init__ denying_vendor PyNone lab_world)
    = emit_events (before ++ [VendorCall cls args]) lab_world
    /\ Forall (call_returned denying_vendor) before
    /\ denying_vendor cls args
       = Raised (PyException (py "ClientAuthenticationError")).
Proof.
  apply (image_evaluator_construction_failure denying_vendor PyNone lab_world).
  vm_compute. reflexivity.
Defined.

(** X8: once the data is serialised and the five required variables are
    read, the outcome of [evaluate_article] is that of the construction of
    the evaluator.  If the construction returns, the call returns the
    article literal after the six reads of the environment, the
    constructor calls, one print of the result text, and the span with its
    two attributes.  If a constructor raises, that exception escapes:
    nothing is printed and the span is ended with the exception and the
    "inputs" attribute alone. *)
Theorem evaluate_article_follows_construction
    vendor data ctx w s deployment version subscription group project :
  json_dumps data = Returned s ->
  environ w !! py "AZURE_OPENAI_4_EVAL_DEPLOYMENT_NAME" = Some deployment ->
  environ w !! py "AZURE_OPENAI_API_VERSION" = Some version ->
  environ w !! py "AZURE_SUBSCRIPTION_ID" = Some subscription ->
  environ w !! py "AZURE_RESOURCE_GROUP" = Some group ->
  environ w !! py "AZURE_AI_PROJECT_NAME" = Some project ->
  exists (o : outcome ArticleEvaluator) calls,
    (forall w',
       ArticleEvaluator__init__ vendor
         (model_configuration deployment version
            (environ w !! py "AZURE_OPENAI_NAME"))
         (project_scope_of subscription group project) w'
       = (o, emit_events calls w'))
    /\ construction_trace vendor o calls
    /\ evaluate_article vendor data ctx w
       = match o with
         | Returned _ =>
             (Returned article_result,
              emit_events
                (map EnvRead read_order ++ calls
                 ++ [ Printed [PyStr (py "results: ");
                               PyStr article_result_json];
                      SpanEnded (run_evaluators_span ctx s) ])
                w)
         | Raised e =>
             (Raised e,
              emit_events
                (map EnvRead read_order ++ calls
                 ++ [ SpanEnded
                        (mkSpan (py "run_evaluators") ctx
                           (<[py "inputs" := PyStr s]> ∅) (Some e)) ])
                w)
         end.
Proof.
  intros Hjson E1 E2 E3 E4 E5.
  destruct (constructs_ArticleEvaluator__init__ vendor
              (model_configuration deployment version
                 (environ w !! py "AZURE_OPENAI_NAME"))
              (project_scope_of subscription group project))
    as (o & calls & Hinit & T).
  exists o, calls. split; [exact Hinit|]. split; [exact T|].
  exact (evaluate_article_after_construction vendor data ctx w s
           _ _ _ _ _ o calls Hjson E1 E2 E3 E4 E5 Hinit).
Qed.

Lemma evaluate_article_follows_construction_witness :
  exists (o : outcome ArticleEvaluator) calls,
    (forall w',
       ArticleEvaluator__init__ denying_vendor
         (model_configuration (py "gpt-4") (py "2024-02-01")
            (environ lab_world !! py "AZURE_OPENAI_NAME"))
         (project_scope_of (py "0000") (py "rg") (py "writer")) w'
       = (o, emit_events calls w'))
    /\ construction_trace denying_vendor o calls
    /\ evaluate_article denying_vendor article_data root_context lab_world
       = match o with
         | Returned _ =>
             (Returned article_result,
              emit_events
                (map EnvRead read_order ++ calls
                 ++ [ Printed [PyStr (py "results: ");
                               PyStr article_result_json];
                      SpanEnded
                        (run_evaluators_span root_context article_data_json) ])
                lab_world)
         | Raised e =>
             (Raised e,
              emit_events
                (map EnvRead read_order ++ calls
                 ++ [ SpanEnded
                        (mkSpan (py "run_evaluators") root_context
                           (<[py "inputs" := PyStr article_data_json]> ∅)
                           (Some e)) ])
                lab_world)
         end.
Proof.
  apply (evaluate_article_follows_construction denying_vendor article_data
           root_context lab_world article_data_json
           (py "gpt-4") (py "2024-02-01") (py "0000") (py "rg") (py "writer"));
    vm_compute; reflexivity.
Defined.

(** X9: in a configured environment the first constructor called is the
    relevance evaluator's, on a configuration whose deployment and API
    version are the values read and whose endpoint is made from
    AZURE_OPENAI_NAME; when that variable is unset the endpoint is the
    text "https://None.cognitiveservices.azure.com/", and no exception is
    raised for it. *)
Theorem endpoint_without_resource_name
    vendor data ctx w s deployment version subscription group project :
  json_dumps data = Returned s ->
  environ w !! py "AZURE_OPENAI_4_EVAL_DEPLOYMENT_NAME" = Some deployment ->
  environ w !! py "AZURE_OPENAI_API_VERSION" = Some version ->
  environ w !! py "AZURE_SUBSCRIPTION_ID" = Some subscription ->
  environ w !! py "AZURE_RESOURCE_GROUP" = Some group ->
  environ w !! py "AZURE_AI_PROJECT_NAME" = Some project ->
  environ w !! py "AZURE_OPENAI_NAME" = None ->
  exists rest,
    snd (evaluate_article vendor data ctx w)
    = emit_events
        (map EnvRead read_order
         ++ quality_call RelevanceEvaluator
              (PyDict [
                 (PyStr (py "azure_deployment"), PyStr deployment);
                 (PyStr (py "api_version"), PyStr version);
                 (PyStr (py "azure_endpoint"),
                  PyStr (py "https://None.cognitiveservices.azure.com/")) ])
            :: rest)
        w.
Proof.
  intros Hjson E1 E2 E3 E4 E5 Ename.
  destruct (ArticleEvaluator__init__first_call vendor
              (model_configuration deployment version
                 (environ w !! py "AZURE_OPENAI_NAME"))
              (project_scope_of subscription group project))
    as (o & rest & Hinit & _).
  rewrite (evaluate_article_after_construction vendor data ctx w s
             _ _ _ _ _ o _ Hjson E1 E2 E3 E4 E5 Hinit).
  rewrite Ename. destruct o as [evaluator|e]; eexists; reflexivity.
Qed.

Lemma endpoint_without_resource_name_witness :
  exists rest,
    snd (evaluate_article plain_vendor article_data root_context lab_world)
    = emit_events
        (map EnvRead read_order
         ++ quality_call RelevanceEvaluator
              (PyDict [
                 (PyStr (py "azure_deployment"), PyStr (py "gpt-4"));
                 (PyStr (py "api_version"), PyStr (py "2024-02-01"));
                 (PyStr (py "azure_endpoint"),
                  PyStr (py "https://None.cognitiveservices.azure.com/")) ])
            :: rest)
        lab_world.
Proof.
  apply (endpoint_without_resource_name plain_vendor article_data root_context
           lab_world article_data_json
           (py "gpt-4") (py "2024-02-01") (py "0000") (py "rg") (py "writer"));
    vm_compute; reflexivity.
Defined.

(** X10: the environment is read in a fixed order and the reads stop at
    the first required variable that is unset: for JSON-serialisable data
    the call makes exactly the reads up to and including that variable,
    raises [KeyError] for it, and never reads the variables after it. *)
Theorem reads_stop_at_first_unset vendor data ctx w s name :
  json_dumps data = Returned s ->
  first_unset (environ w) = Some name ->
  evaluate_article vendor data ctx w
  = (Raised (KeyError name),
     emit_events
       (map EnvRead (through name read_order)
        ++ [ SpanEnded
               (mkSpan (py "run_evaluators") ctx
                  (<[py "inputs" := PyStr s]> ∅)
                  (Some (KeyError name))) ])
       w)
  /\ last (through name read_order) = Some name.
Proof.
  intros Hjson Hunset. split.
  - by apply evaluate_article_reads_until.
  - apply through_last.
    destruct (first_unset_Some _ _ Hunset) as [Hin _].
    unfold required_env in Hin.
    repeat (apply elem_of_cons in Hin as [->|Hin];
            [apply (bool_decide_unpack _); vm_compute; exact I|]).
    by apply elem_of_nil in Hin.
Qed.

Lemma reads_stop_at_first_unset_witness :
  evaluate_article plain_vendor article_data root_context partial_world
  = (Raised (KeyError (py "AZURE_RESOURCE_GROUP")),
     emit_events
       (map EnvRead (through (py "AZURE_RESOURCE_GROUP") read_order)
        ++ [ SpanEnded
               (mkSpan (py "run_evaluators") root_context
                  (<[py "inputs" := PyStr article_data_json]> ∅)
                  (Some (KeyError (py "AZURE_RESOURCE_GROUP")))) ])
       partial_world)
  /\ last (through (py "AZURE_RESOURCE_GROUP") read_order)
     = Some (py "AZURE_RESOURCE_GROUP").
Proof.
  apply reads_stop_at_first_unset; vm_compute; reflexivity.
Defined.

(** X11: when one of its six arguments has no JSON form,
    [evaluate_article_in_background] raises while it builds the record, and
    the exception is the one [json.dumps] raised on the first of the three
    texts it could not write (the query, then the context, then the
    response): [evaluate_article] is not called, no span is opened, nothing
    is read or printed, and the world is exactly as before. *)
Theorem background_refuses_without_trace
    vendor rc pc ac research products article w :
  ~ (json_serializable rc /\ json_serializable pc /\ json_serializable ac
     /\ json_serializable research /\ json_serializable products
     /\ json_serializable article) ->
  exists e,
    evaluate_article_in_background vendor rc pc ac research products article w
    = (Raised e, w)
    /\ (json_dumps (PyDict [ (PyStr (py "research_context"), rc);
                             (PyStr (py "product_context"), pc);
                             (PyStr (py "assignment_context"), ac) ])
        = Raised e
        \/ (json_serializable rc /\ json_serializable pc
            /\ json_serializable ac
            /\ json_dumps (PyDict [ (PyStr (py "research"), research);
                                    (PyStr (py "products"), products) ])
               = Raised e)
        \/ (json_serializable rc /\ json_serializable pc
            /\ json_serializable ac /\ json_serializable research
            /\ json_serializable products
            /\ json_dumps article = Raised e)).
Proof. apply evaluate_article_in_background_refused. Qed.

Lemma background_refuses_without_trace_witness :
  exists e,
    evaluate_article_in_background plain_vendor
      PyNone PyNone PyNone PyNone a_set PyNone busy_world
    = (Raised e, busy_world)
    /\ (json_dumps (PyDict [ (PyStr (py "research_context"), PyNone);
                             (PyStr (py "product_context"), PyNone);
                             (PyStr (py "assignment_context"), PyNone) ])
        = Raised e
        \/ (json_serializable PyNone /\ json_serializable PyNone
            /\ json_serializable PyNone
            /\ json_dumps (PyDict [ (PyStr (py "research"), PyNone);
                                    (PyStr (py "products"), a_set) ])
               = Raised e)
        \/ (json_serializable PyNone /\ json_serializable PyNone
            /\ json_serializable PyNone /\ json_serializable PyNone
            /\ json_serializable a_set
            /\ json_dumps PyNone = Raised e)).
Proof.
  apply background_refuses_without_trace.
  intros (_ & _ & _ & _ & [s Hs] & _). vm_compute in Hs. discriminate Hs.
Defined.

(** X12: for six JSON-serialisable arguments, every call of
    [evaluate_article_in_background] ends a span "run_evaluators" whose
    context is the one of the span current on entry, whose status is the
    exception the call raises, if any, and whose "inputs" attribute is the
    JSON text of the record of the three JSON texts (each of them encoded
    once more as a JSON string). *)
Theorem background_span vendor rc pc ac research products article w :
  json_serializable rc -> json_serializable pc -> json_serializable ac ->
  json_serializable research -> json_serializable products ->
  json_serializable article ->
  exists query context response o evs sp,
    json_dumps (PyDict [
        (PyStr (py "research_context"), rc);
        (PyStr (py "product_context"), pc);
        (PyStr (py "assignment_context"), ac) ]) = Returned query
    /\ json_dumps (PyDict [
          (PyStr (py "research"), research);
          (PyStr (py "products"), products) ]) = Returned context
    /\ json_dumps article = Returned response
    /\ evaluate_article_in_background vendor
         rc pc ac research products article w
       = (o, emit_events (evs ++ [SpanEnded sp]) w)
    /\ span_name sp = py "run_evaluators"
    /\ span_context sp = set_span_in_context (current_span w)
    /\ span_status sp = raised o
    /\ span_attributes sp !! py "inputs"
       = Some (PyStr
                 (record_json
                    [ (py "query", encode_basestring_ascii query);
                      (py "context", encode_basestring_ascii context);
                      (py "response", encode_basestring_ascii response) ])).
Proof.
  intros [s1 H1] [s2 H2] [s3 H3] [s4 H4] [s5 H5] [s6 H6].
  pose proof (json_dumps_record
    [ (py "research_context", rc, s1); (py "product_context", pc, s2);
      (py "assignment_context", ac, s3) ]) as Hq.
  pose proof (json_dumps_record
    [ (py "research", research, s4); (py "products", products, s5) ]) as Hc.
  cbn [map] in Hq, Hc.
  specialize (Hq ltac:(repeat constructor; assumption)).
  specialize (Hc ltac:(repeat constructor; assumption)).
  pose proof (evaluate_article_in_background_run vendor
                rc pc ac research products article _ _ _ w Hq Hc H6) as Hrun.
  destruct (evaluate_article_span vendor
              (evaluation_input
                 (record_json
                    [ (py "research_context", s1); (py "product_context", s2);
                      (py "assignment_context", s3) ])
                 (record_json [ (py "research", s4); (py "products", s5) ])
                 s6)
              (set_span_in_context (current_span w)) w)
    as (o & evs & sp & H & Hn & Hctx & Hst & Hin).
  unfold evaluation_input in H. rewrite H in Hrun.
  eexists _, _, s6, (obind o (fun _ => Returned PyNone)), evs, sp.
  split; [exact Hq|]. split; [exact Hc|]. split; [exact H6|].
  split; [exact Hrun|]. split; [exact Hn|]. split; [exact Hctx|].
  split; [by destruct o|].
  apply Hin. apply json_dumps_evaluation_input.
Qed.

Lemma background_span_witness :
  exists query context response o evs sp,
    json_dumps (PyDict [
        (PyStr (py "research_context"), PyStr (py "notes"));
        (PyStr (py "product_context"), PyStr (py "tents"));
        (PyStr (py "assignment_context"), PyStr (py "write")) ])
    = Returned query
    /\ json_dumps (PyDict [
          (PyStr (py "research"), PyList [PyInt 1]);
          (PyStr (py "products"), PyList []) ]) = Returned context
    /\ json_dumps (PyStr (py "article")) = Returned response
    /\ evaluate_article_in_background plain_vendor
         (PyStr (py "notes")) (PyStr (py "tents")) (PyStr (py "write"))
         (PyList [PyInt 1]) (PyList []) (PyStr (py "article")) busy_world
       = (o, emit_events (evs ++ [SpanEnded sp]) busy_world)
    /\ span_name sp = py "run_evaluators"
    /\ span_context sp = set_span_in_context (current_span busy_world)
    /\ span_status sp = raised o
    /\ span_attributes sp !! py "inputs"
       = Some (PyStr
                 (record_json
                    [ (py "query", encode_basestring_ascii query);
                      (py "context", encode_basestring_ascii context);
                      (py "response", encode_basestring_ascii response) ])).
Proof.
  apply (background_span plain_vendor); eexists; vm_compute; reflexivity.
Defined.

(** X13: the exceptions that can escape [evaluate_article] are of three
    kinds, in the order of the program: the exception that [json.dumps]
    raises on the data, whatever it is; [KeyError] for the first required
    variable that is unset; and, in a configured environment, the exception
    raised by a vendor constructor. *)
Theorem exceptions_of_evaluate_article vendor data ctx w e :
  fst (evaluate_article vendor data ctx w) = Raised e ->
  json_dumps data = Raised e
  \/ (json_serializable data
      /\ exists name, first_unset (environ w) = Some name /\ e = KeyError name)
  \/ (json_serializable data /\ env_configured (environ w)
      /\ exists cls args, vendor cls args = Raised e).
Proof.
  intros H. destruct (json_dumps data) as [s|e0] eqn:Hjson.
  - right. destruct (first_unset (environ w)) as [name|] eqn:Hunset.
    + left. split; [by exists s|]. exists name. split; [done|].
      rewrite (evaluate_article_reads_until vendor data ctx w s name
                 Hjson Hunset) in H.
      by injection H as <-.
    + right. pose proof (first_unset_None _ Hunset) as Henv.
      split; [by exists s|]. split; [exact Henv|].
      apply Forall_cons in Henv as [[v1 E1] Henv].
      apply Forall_cons in Henv as [[v2 E2] Henv].
      apply Forall_cons in Henv as [[v3 E3] Henv].
      apply Forall_cons in Henv as [[v4 E4] Henv].
      apply Forall_cons in Henv as [[v5 E5] _].
      destruct (constructs_ArticleEvaluator__init__ vendor
                  (model_configuration v1 v2
                     (environ w !! py "AZURE_OPENAI_NAME"))
                  (project_scope_of v3 v4 v5))
        as (o & calls & Hinit & T).
      rewrite (evaluate_article_after_construction vendor data ctx w s
                 _ _ _ _ _ o calls Hjson E1 E2 E3 E4 E5 Hinit) in H.
      destruct o as [evaluator|e1]; [discriminate|].
      injection H as <-.
      destruct T as (before & cls & args & _ & _ & He). by exists cls, args.
  - left. rewrite (evaluate_article_rejects vendor data ctx w e0 Hjson) in H.
    by injection H as <-.
Qed.

Lemma exceptions_of_evaluate_article_witness :
  json_dumps article_data
  = Raised (PyException (py "ClientAuthenticationError"))
  \/ (json_serializable article_data
      /\ exists name,
           first_unset (environ lab_world) = Some name
           /\ PyException (py "ClientAuthenticationError") = KeyError name)
  \/ (json_serializable article_data /\ env_configured (environ lab_world)
      /\ exists cls args,
           denying_vendor cls args
           = Raised (PyException (py "ClientAuthenticationError"))).
Proof.
  apply (exceptions_of_evaluate_article denying_vendor article_data
           root_context lab_world).
  vm_compute. reflexivity.
Defined.

(** X14: the complete trace of a successful [evaluate_article].  With
    JSON-serialisable data, the five required variables set and vendor
    constructors that return, the call does, in this order and nothing
    else: the six reads of the environment; the construction of the four
    quality evaluators on the configuration made of the deployment, the
    API version and the endpoint "https://<AZURE_OPENAI_NAME>.cognitiveservices.azure.com/";
    the construction of the four safety evaluators, each on the project
    scope made of the subscription, resource group and project read and on
    a credential of its own; one print of the result text; the end of the
    span. *)
Theorem evaluate_article_complete_trace
    vendor data ctx w s deployment version subscription group project :
  vendor_constructs vendor ->
  json_dumps data = Returned s ->
  environ w !! py "AZURE_OPENAI_4_EVAL_DEPLOYMENT_NAME" = Some deployment ->
  environ w !! py "AZURE_OPENAI_API_VERSION" = Some version ->
  environ w !! py "AZURE_SUBSCRIPTION_ID" = Some subscription ->
  environ w !! py "AZURE_RESOURCE_GROUP" = Some group ->
  environ w !! py "AZURE_AI_PROJECT_NAME" = Some project ->
  exists credential,
    vendor DefaultAzureCredential (mkArgs [] []) = Returned credential
    /\ evaluate_article vendor data ctx w
       = (Returned article_result,
          emit_events
            (map EnvRead read_order
             ++ article_construction
                  (model_configuration deployment version
                     (environ w !! py "AZURE_OPENAI_NAME"))
                  (project_scope_of subscription group project)
                  credential
             ++ [ Printed [PyStr (py "results: "); PyStr article_result_json];
                  SpanEnded (run_evaluators_span ctx s) ])
            w).
Proof.
  intros Hv Hjson E1 E2 E3 E4 E5.
  set (cfg := model_configuration deployment version
                (environ w !! py "AZURE_OPENAI_NAME")).
  set (scope := project_scope_of subscription group project).
  destruct (Hv RelevanceEvaluator (mkArgs [cfg] [])) as [o1 H1].
  destruct (Hv FluencyEvaluator (mkArgs [cfg] [])) as [o2 H2].
  destruct (Hv CoherenceEvaluator (mkArgs [cfg] [])) as [o3 H3].
  destruct (Hv GroundednessEvaluator (mkArgs [cfg] [])) as [o4 H4].
  destruct (Hv DefaultAzureCredential (mkArgs [] [])) as [credential Hc].
  destruct (Hv ViolenceEvaluator
              (mkArgs [] [ (py "azure_ai_project", scope);
                           (py "credential", credential) ])) as [o5 H5].
  destruct (Hv HateUnfairnessEvaluator
              (mkArgs [] [ (py "azure_ai_project", scope);
                           (py "credential", credential) ])) as [o6 H6].
  destruct (Hv SelfHarmEvaluator
              (mkArgs [] [ (py "azure_ai_project", scope);
                           (py "credential", credential) ])) as [o7 H7].
  destruct (Hv SexualEvaluator
              (mkArgs [] [ (py "azure_ai_project", scope);
                           (py "credential", credential) ])) as [o8 H8].
  exists credential. split; [exact Hc|].
  exact (evaluate_article_after_construction vendor data ctx w s
           _ _ _ _ _ (Returned _) _ Hjson E1 E2 E3 E4 E5
           (fun w' => ArticleEvaluator__init__run vendor cfg scope w'
                        _ _ _ _ _ _ _ _ _ H1 H2 H3 H4 Hc H5 H6 H7 H8)).
Qed.

Lemma evaluate_article_complete_trace_witness :
  exists credential,
    plain_vendor DefaultAzureCredential (mkArgs [] []) = Returned credential
    /\ evaluate_article plain_vendor article_data root_context named_world
       = (Returned article_result,
          emit_events
            (map EnvRead read_order
             ++ article_construction
                  (model_configuration (py "gpt-4") (py "2024-02-01")
                     (environ named_world !! py "AZURE_OPENAI_NAME"))
                  (project_scope_of (py "0000") (py "rg") (py "writer"))
                  credential
             ++ [ Printed [PyStr (py "results: "); PyStr article_result_json];
                  SpanEnded (run_evaluators_span root_context
                               article_data_json) ])
            named_world).
Proof.
  apply (evaluate_article_complete_trace plain_vendor article_data root_context
           named_world article_data_json
           (py "gpt-4") (py "2024-02-01") (py "0000") (py "rg") (py "writer")).
  - intros cls args. eexists. reflexivity.
  - vm_compute. reflexivity.
  - vm_compute. reflexivity.
  - vm_compute. reflexivity.
  - vm_compute. reflexivity.
  - vm_compute. reflexivity.
  - vm_compute. reflexivity.
Defined.
